(** * Local code-signing assets and archive decomposition

    A shallow embedding of two Go packages:

    - [localcodesignasset] (the profile matching engine: [findProfile],
      [isProfileMatching], [isProfileMatchingWithSuperset] and the filters
      they are made of);
    - [xcarchive] (the iOS archive model of [ios.go]: the constructors
      [NewIosBaseApplication] ... [NewIosArchive], the two aggregated
      bundle-ID maps and [TeamID]).

    Go maps are [gmap]s, Go slices are lists, a Go [(T, error)] pair is a
    [result], and a Go [interface{}] holding a property-list value is the
    inductive [value]; a nil interface is [None]. *)

From Stdlib Require Import ZArith Ascii String List Bool Lia.
From stdpp Require Import base option list gmap strings fin_maps.

Set Warnings "-register-all".

Local Open Scope string_scope.
Local Open Scope Z_scope.

(** ** Values held by a property list *)

(** The dynamic values a parsed property list holds.  Entitlement files hold
    booleans, strings, integers and arrays. *)
Inductive value : Type :=
| VBool (b : bool)
| VString (s : string)
| VInteger (n : Z)
| VArray (l : list value).

(** [plistutil.PlistData], and [autocodesign.Entitlements] which the engine
    converts it to: [map[string]interface{}].  A parsed property list never
    stores a nil interface, so the map holds [value]s and only a lookup may
    come back nil. *)
Abbreviation PlistData := (gmap string value).

(** [PlistData.GetString]: the string under the key, with the [found] flag;
    a missing key and a value of another type both give [("", false)]. *)
Definition GetString (data : PlistData) (forKey : string) : string * bool :=
  match data !! forKey with
  | Some (VString casted) => (casted, true)
  | _ => ("", false)
  end.

(** [reflect.DeepEqual] on two non-nil interfaces: same dynamic type and
    deeply equal contents. *)
Fixpoint valueDeepEqual (a b : value) {struct a} : bool :=
  match a, b with
  | VBool x, VBool y => Bool.eqb x y
  | VString x, VString y => String.eqb x y
  | VInteger x, VInteger y => Z.eqb x y
  | VArray xs, VArray ys =>
      (fix elems (xs ys : list value) {struct xs} : bool :=
         match xs, ys with
         | [], [] => true
         | x :: xs', y :: ys' => valueDeepEqual x y && elems xs' ys'
         | _, _ => false
         end) xs ys
  | _, _ => false
  end.

(** [reflect.DeepEqual] on two interfaces, either of which may be nil. *)
Definition DeepEqual (a b : option value) : bool :=
  match a, b with
  | None, None => true
  | Some x, Some y => valueDeepEqual x y
  | _, _ => false
  end.

(** The type assertion [v.(bool)]. *)
Definition asBool (v : option value) : option bool :=
  match v with
  | Some (VBool b) => Some b
  | _ => None
  end.

(** ** Results of fallible calls *)

Inductive result (A : Type) : Type :=
| Ok (a : A)
| Err (e : string).
Arguments Ok {A} a.
Arguments Err {A} e.

(** [if err != nil { return ..., err }]: the first error ends the call. *)
#[export] Instance result_bind : MBind result :=
  fun A B (k : A -> result B) (r : result A) =>
    match r with
    | Ok a => k a
    | Err e => Err e
    end.

(** ** Provisioning profiles ([profileutil]) *)

Module ProfileUtil.

Record CertificateInfoModel : Type := {
  Serial : string
}.

Record ProvisioningProfileInfoModel : Type := {
  Name : string;
  TeamID : string;
  BundleID : string;
  ExportType : string;
  Type_ : string;
  ExpirationDate : Z;
  DeveloperCertificates : list CertificateInfoModel;
  ProvisionedDevices : list string;
  ProvisionsAllDevices : bool;
  Entitlements : PlistData
}.

End ProfileUtil.
Import ProfileUtil.

(** The order in which a [for ... range] loop visits a Go map: every entry
    once, in an order the language leaves open. *)
Record MapRange : Type := {
  rangeOf : forall V : Type, gmap string V -> list (string * V);
  rangeOf_perm : forall (V : Type) (m : gmap string V),
    rangeOf V m ≡ₚ map_to_list m
}.
Arguments rangeOf _ {V} _.

Definition canonicalRange : MapRange :=
  {| rangeOf := fun V m => map_to_list m;
     rangeOf_perm := fun V m => reflexivity (map_to_list m) |}.

(** ** The profile matching engine ([localcodesignasset]) *)

(** What the engine takes from outside its package: the wall clock and the
    calendar ([time]), [strings.ToLower], the profile's own
    [IsXcodeManaged] method ([profileutil]), and the iCloud container
    comparison with its entitlement key ([autocodesign]).

    Instants are integers and [Time.Before] is [<]; [now] is what
    [time.Now()] reads, one reading serving a whole match request;
    [AddDate t years months days] is [t.AddDate(years, months, days)]. *)
Class MatchEnv : Type := {
  now : Z;
  AddDate : Z -> Z -> Z -> Z -> Z;
  ToLower : string -> string;
  IsXcodeManaged : ProvisioningProfileInfoModel -> bool;
  ICloudIdentifiersEntitlementKey : string;
  FindMissingContainers : PlistData -> PlistData -> result (list string);
  mapRange : MapRange
}.

Module LocalCodesignAsset.

(** [sliceutil.IsStringInSlice]: linear search for an equal string. *)
Fixpoint IsStringInSlice (value : string) (list : list string) : bool :=
  match list with
  | [] => false
  | item :: rest => if String.eqb item value then true else IsStringInSlice value rest
  end.

(** Modelled from the spec: [contains], a helper of the package that is
    defined outside the file embedded here.  "Every required device UDID
    must appear in the profile's device list": it tells whether the string
    occurs in the slice. *)
Fixpoint contains (haystack : list string) (needle : string) : bool :=
  match haystack with
  | [] => false
  | item :: rest => if String.eqb item needle then true else contains rest needle
  end.

(** A [for ... range] loop whose body either rejects ([return false]) or
    moves on to the next element, followed by [return true]. *)
Fixpoint rangeAccepts {A : Type} (body : A -> bool) (items : list A) : bool :=
  match items with
  | [] => true
  | item :: rest => if body item then rangeAccepts body rest else false
  end.

Definition isActive `{MatchEnv} (profile : ProvisioningProfileInfoModel)
    (minProfileDaysValid : Z) : bool :=
  let expiration := now in
  let expiration :=
    if 0 <? minProfileDaysValid
    then AddDate expiration 0 0 minProfileDaysValid
    else expiration in
  expiration <? ExpirationDate profile.

Definition hasMatchingDistributionType (profile : ProvisioningProfileInfoModel)
    (distributionType : string) : bool :=
  String.eqb (ExportType profile) distributionType.

Definition hasMatchingBundleID (profile : ProvisioningProfileInfoModel)
    (bundleID : string) : bool :=
  String.eqb (BundleID profile) bundleID.

Definition hasMatchingPlatform `{MatchEnv} (profile : ProvisioningProfileInfoModel)
    (platform : string) : bool :=
  String.eqb (ToLower platform) (Type_ profile).

Definition hasMatchingLocalCertificates (profile : ProvisioningProfileInfoModel)
    (localCertificateSerials : list string) : bool :=
  let profileCertificateSerials := map Serial (DeveloperCertificates profile) in
  rangeAccepts
    (fun serial => IsStringInSlice serial profileCertificateSerials)
    localCertificateSerials.

(** The iCloud branch shared by both comparison modes:
    [err != nil || len(missingContainers) > 0] rejects. *)
Definition iCloudContainersCovered `{MatchEnv}
    (appEntitlements profileEntitlements : PlistData) : bool :=
  match FindMissingContainers appEntitlements profileEntitlements with
  | Err _ => false
  | Ok missingContainers => negb (0 <? Z.of_nat (length missingContainers))
  end.

(** Body of the loop of [containsAllAppEntitlements]; [true] is "next key". *)
Definition exactEntry `{MatchEnv} (appEntitlements profileEntitlements : PlistData)
    (entry : string * value) : bool :=
  let '(key, value) := entry in
  let profileEntitlementValue := profileEntitlements !! key in
  if String.eqb key ICloudIdentifiersEntitlementKey then
    iCloudContainersCovered appEntitlements profileEntitlements
  else if negb (DeepEqual profileEntitlementValue (Some value)) then false
  else true.

Definition containsAllAppEntitlements `{MatchEnv}
    (profile : ProvisioningProfileInfoModel) (appEntitlements : PlistData) : bool :=
  let profileEntitlements := Entitlements profile in
  let hasMissingEntitlement := false in
  if rangeAccepts (exactEntry appEntitlements profileEntitlements)
       (rangeOf mapRange appEntitlements)
  then negb hasMissingEntitlement
  else false.

(** Body of the loop of [profileSupportsAppEntitlements]. *)
Definition supersetEntry `{MatchEnv} (appEntitlements profileEntitlements : PlistData)
    (entry : string * value) : bool :=
  let '(key, value) := entry in
  let profileEntitlementValue := profileEntitlements !! key in
  if String.eqb key ICloudIdentifiersEntitlementKey then
    iCloudContainersCovered appEntitlements profileEntitlements
  else if negb (DeepEqual profileEntitlementValue (Some value)) then
    match profileEntitlementValue with
    | None => false
    | Some _ =>
        match asBool (Some value) with
        | Some appBool =>
            match asBool profileEntitlementValue with
            | Some profileBool => if appBool && negb profileBool then false else true
            | None => true
            end
        | None =>
            if negb (DeepEqual profileEntitlementValue (Some value)) then false
            else true
        end
    end
  else true.

Definition profileSupportsAppEntitlements `{MatchEnv}
    (profile : ProvisioningProfileInfoModel) (appEntitlements : PlistData) : bool :=
  let profileEntitlements := Entitlements profile in
  rangeAccepts (supersetEntry appEntitlements profileEntitlements)
    (rangeOf mapRange appEntitlements).

Definition provisionsDevices (profile : ProvisioningProfileInfoModel)
    (deviceUDIDs : list string) : bool :=
  if ProvisionsAllDevices profile || (length deviceUDIDs =? 0)%nat then true
  else if (length (ProvisionedDevices profile) =? 0)%nat then false
  else rangeAccepts (fun deviceUDID => contains (ProvisionedDevices profile) deviceUDID)
         deviceUDIDs.

(** The parameters of one match attempt, in the order the functions take them. *)
Record MatchRequest : Type := {
  platform : string;
  distributionType : string;
  bundleID : string;
  entitlements : PlistData;
  minProfileDaysValid : Z;
  certSerials : list string;
  deviceUDIDs : list string
}.

Definition isProfileMatching `{MatchEnv} (profile : ProvisioningProfileInfoModel)
    (r : MatchRequest) : bool :=
  if negb (isActive profile (minProfileDaysValid r)) then false
  else if negb (hasMatchingDistributionType profile (distributionType r)) then false
  else if negb (hasMatchingBundleID profile (bundleID r)) then false
  else if negb (hasMatchingPlatform profile (platform r)) then false
  else if negb (hasMatchingLocalCertificates profile (certSerials r)) then false
  else if negb (containsAllAppEntitlements profile (entitlements r)) then false
  else if negb (provisionsDevices profile (deviceUDIDs r)) then false
  else if IsXcodeManaged profile then false
  else true.

Definition isProfileMatchingWithSuperset `{MatchEnv}
    (profile : ProvisioningProfileInfoModel) (r : MatchRequest) : bool :=
  if negb (isActive profile (minProfileDaysValid r)) then false
  else if negb (hasMatchingDistributionType profile (distributionType r)) then false
  else if negb (hasMatchingBundleID profile (bundleID r)) then false
  else if negb (hasMatchingPlatform profile (platform r)) then false
  else if negb (hasMatchingLocalCertificates profile (certSerials r)) then false
  else if negb (profileSupportsAppEntitlements profile (entitlements r)) then false
  else if negb (provisionsDevices profile (deviceUDIDs r)) then false
  else true.

(** One of the two loops of [findProfile]: [return &profile] at the first
    profile the predicate accepts, fall through when none is. *)
Fixpoint firstAccepted (accepts : ProvisioningProfileInfoModel -> bool)
    (localProfiles : list ProvisioningProfileInfoModel)
    : option ProvisioningProfileInfoModel :=
  match localProfiles with
  | [] => None
  | profile :: rest =>
      if accepts profile then Some profile else firstAccepted accepts rest
  end.

Definition findProfile `{MatchEnv} (localProfiles : list ProvisioningProfileInfoModel)
    (r : MatchRequest) : option ProvisioningProfileInfoModel :=
  match firstAccepted (fun profile => isProfileMatching profile r) localProfiles with
  | Some profile => Some profile
  | None =>
      match firstAccepted (fun profile => isProfileMatchingWithSuperset profile r)
              localProfiles with
      | Some profile => Some profile
      | None => None
      end
  end.

End LocalCodesignAsset.

(** ** The archive model ([xcarchive], ios.go) *)

(** What ios.go takes from outside: [path/filepath] and [strings]
    ([Join], [Base], [TrimSuffix], [Glob]), [pathutil] ([EscapeGlobPath],
    [IsPathExists]), the two file parsers of [plistutil] and [profileutil],
    the nested-dictionary accessor of [plistutil], and the package's own
    [getEntitlements] and [executableNameFromInfoPlist], which live in
    another file of the package.  The traversal only reads, so each is a
    function of its arguments. *)
Class ArchiveEnv : Type := {
  Join : list string -> string;
  Base : string -> string;
  TrimSuffix : string -> string -> string;
  EscapeGlobPath : string -> string;
  Glob : string -> result (list string);
  IsPathExists : string -> result bool;
  NewPlistDataFromFile : string -> result PlistData;
  NewProvisioningProfileInfoFromFile : string -> result ProvisioningProfileInfoModel;
  GetMapStringInterface : PlistData -> string -> PlistData * bool;
  getEntitlements : string -> string -> result PlistData;
  executableNameFromInfoPlist : PlistData -> string;
  archiveMapRange : MapRange
}.

Module XCArchive.

Record IosBaseApplication : Type := {
  Path : string;
  InfoPlist : PlistData;
  Entitlements : PlistData;
  ProvisioningProfile : ProvisioningProfileInfoModel
}.

Definition BundleIdentifier (app : IosBaseApplication) : string :=
  let '(bundleID, _) := GetString (InfoPlist app) "CFBundleIdentifier" in
  bundleID.

Definition NewIosBaseApplication `{ArchiveEnv} (path : string)
    : result IosBaseApplication :=
  let infoPlistPath := Join [path; "Info.plist"] in
  infoPlist ←
    match IsPathExists infoPlistPath with
    | Err err =>
        Err ("failed to check if Info.plist exists at: " +:+ infoPlistPath
             +:+ ", error: " +:+ err)
    | Ok false => Err ("Info.plist not exists at: " +:+ infoPlistPath)
    | Ok true => NewPlistDataFromFile infoPlistPath
    end;
  let provisioningProfilePath := Join [path; "embedded.mobileprovision"] in
  provisioningProfile ←
    match IsPathExists provisioningProfilePath with
    | Err err =>
        Err ("failed to check if profile exists at: " +:+ provisioningProfilePath
             +:+ ", error: " +:+ err)
    | Ok false => Err ("profile not exists at: " +:+ provisioningProfilePath)
    | Ok true => NewProvisioningProfileInfoFromFile provisioningProfilePath
    end;
  let executable := executableNameFromInfoPlist infoPlist in
  entitlements ← getEntitlements path executable;
  Ok {| Path := path;
        InfoPlist := infoPlist;
        Entitlements := entitlements;
        ProvisioningProfile := provisioningProfile |}.

Record IosExtension : Type := {
  ExtensionBase : IosBaseApplication
}.

Definition NewIosExtension `{ArchiveEnv} (path : string) : result IosExtension :=
  baseApp ← NewIosBaseApplication path;
  Ok {| ExtensionBase := baseApp |}.

Record IosWatchApplication : Type := {
  WatchBase : IosBaseApplication;
  WatchExtensions : list IosExtension
}.

Record IosClipApplication : Type := {
  ClipBase : IosBaseApplication
}.

(** The loop [for _, pth := range pths] that appends one extension per path
    and returns at the first one that cannot be built. *)
Fixpoint appendExtensions `{ArchiveEnv} (extensions : list IosExtension)
    (pths : list string) : result (list IosExtension) :=
  match pths with
  | [] => Ok extensions
  | pth :: rest =>
      extension ← NewIosExtension pth;
      appendExtensions (extensions ++ [extension])%list rest
  end.

Definition NewIosWatchApplication `{ArchiveEnv} (path : string)
    : result IosWatchApplication :=
  baseApp ← NewIosBaseApplication path;
  let pattern := Join [EscapeGlobPath path; "PlugIns/*.appex"] in
  pths ←
    match Glob pattern with
    | Err err =>
        Err ("failed to search for watch application's extensions using pattern: "
             +:+ pattern +:+ ", error: " +:+ err)
    | Ok pths => Ok pths
    end;
  extensions ← appendExtensions [] pths;
  Ok {| WatchBase := baseApp; WatchExtensions := extensions |}.

Definition NewIosClipApplication `{ArchiveEnv} (path : string)
    : result IosClipApplication :=
  baseApp ← NewIosBaseApplication path;
  Ok {| ClipBase := baseApp |}.

Record IosApplication : Type := {
  AppBase : IosBaseApplication;
  WatchApplication : option IosWatchApplication;
  ClipApplication : option IosClipApplication;
  Extensions : list IosExtension
}.

Definition NewIosApplication `{ArchiveEnv} (path : string) : result IosApplication :=
  baseApp ← NewIosBaseApplication path;
  watchApp ←
    (let pattern := Join [EscapeGlobPath path; "Watch/*.app"] in
     pths ← Glob pattern;
     match pths with
     | watchPath :: _ => app ← NewIosWatchApplication watchPath; Ok (Some app)
     | [] => Ok None
     end);
  clipApp ←
    (let pattern := Join [EscapeGlobPath path; "AppClips/*.app"] in
     pths ← Glob pattern;
     match pths with
     | clipPath :: _ => app ← NewIosClipApplication clipPath; Ok (Some app)
     | [] => Ok None
     end);
  extensions ←
    (let pattern := Join [EscapeGlobPath path; "PlugIns/*.appex"] in
     pths ←
       match Glob pattern with
       | Err err =>
           Err ("failed to search for watch application's extensions using pattern: "
                +:+ pattern +:+ ", error: " +:+ err)
       | Ok pths => Ok pths
       end;
     appendExtensions [] pths);
  Ok {| AppBase := baseApp;
        WatchApplication := watchApp;
        ClipApplication := clipApp;
        Extensions := extensions |}.

Record IosArchive : Type := {
  ArchivePath : string;
  ArchiveInfoPlist : PlistData;
  Application : IosApplication
}.

Definition applicationFromPlist `{ArchiveEnv} (InfoPlist : PlistData) : string * bool :=
  match GetMapStringInterface InfoPlist "ApplicationProperties" with
  | (properties, true) => GetString properties "ApplicationPath"
  | (_, false) => ("", false)
  end.

Definition applicationFromArchive `{ArchiveEnv} (path : string) : result string :=
  let pattern := Join [EscapeGlobPath path; "Products/Applications/*.app"] in
  pths ← Glob pattern;
  match pths with
  | [] => Err ("failed to find main app, using pattern: " +:+ pattern)
  | first :: _ => Ok first
  end.

Definition NewIosArchive `{ArchiveEnv} (path : string) : result IosArchive :=
  let infoPlistPath := Join [path; "Info.plist"] in
  infoPlist ←
    match IsPathExists infoPlistPath with
    | Err err =>
        Err ("failed to check if Info.plist exists at: " +:+ infoPlistPath
             +:+ ", error: " +:+ err)
    | Ok false => Err ("Info.plist not exists at: " +:+ infoPlistPath)
    | Ok true => NewPlistDataFromFile infoPlistPath
    end;
  appPath ←
    match applicationFromPlist infoPlist with
    | (appRelativePathToProducts, true) =>
        Ok (Join [path; "Products"; appRelativePathToProducts])
    | (_, false) => applicationFromArchive path
    end;
  application ←
    match IsPathExists appPath with
    | Err err =>
        Err ("failed to check if app exists, path: " +:+ appPath
             +:+ ", error: " +:+ err)
    | Ok false =>
        Err ("application not found on path: " +:+ appPath
             +:+ ", error: %!s(<nil>)")
    | Ok true => NewIosApplication appPath
    end;
  Ok {| ArchivePath := path;
        ArchiveInfoPlist := infoPlist;
        Application := application |}.

(** [extractFrameworkInfo]: bundle ID and entitlements of a framework that
    carries its own provisioning profile; the pair [("", nil)] for any other.
    A nil map and an empty map read alike, both are [∅]. *)
Definition extractFrameworkInfo `{ArchiveEnv} (frameworkPath : string)
    : string * PlistData :=
  let provisioningProfilePath := Join [frameworkPath; "embedded.mobileprovision"] in
  match IsPathExists provisioningProfilePath with
  | Ok true =>
      let infoPlistPath := Join [frameworkPath; "Info.plist"] in
      match IsPathExists infoPlistPath with
      | Ok true =>
          match NewPlistDataFromFile infoPlistPath with
          | Err _ => ("", ∅)
          | Ok infoPlist =>
              let '(bundleID, ok) := GetString infoPlist "CFBundleIdentifier" in
              if negb ok || String.eqb bundleID "" then ("", ∅)
              else
                let frameworkName := Base frameworkPath in
                let frameworkName := TrimSuffix frameworkName ".framework" in
                match getEntitlements frameworkPath frameworkName with
                | Err _ => (bundleID, ∅)
                | Ok entitlements => (bundleID, entitlements)
                end
          end
      | _ => ("", ∅)
      end
  | _ => ("", ∅)
  end.

(** The zero value [profileutil.ProvisioningProfileInfoModel{}]. *)
Definition emptyProfile : ProvisioningProfileInfoModel :=
  {| Name := ""; ProfileUtil.TeamID := ""; BundleID := ""; ExportType := "";
     Type_ := ""; ExpirationDate := 0; DeveloperCertificates := [];
     ProvisionedDevices := []; ProvisionsAllDevices := false;
     ProfileUtil.Entitlements := ∅ |}.

Definition extractFrameworkProfileInfo `{ArchiveEnv} (frameworkPath : string)
    : string * ProvisioningProfileInfoModel :=
  let provisioningProfilePath := Join [frameworkPath; "embedded.mobileprovision"] in
  match IsPathExists provisioningProfilePath with
  | Ok true =>
      let infoPlistPath := Join [frameworkPath; "Info.plist"] in
      match IsPathExists infoPlistPath with
      | Ok true =>
          match NewPlistDataFromFile infoPlistPath with
          | Err _ => ("", emptyProfile)
          | Ok infoPlist =>
              let '(bundleID, ok) := GetString infoPlist "CFBundleIdentifier" in
              if negb ok || String.eqb bundleID "" then ("", emptyProfile)
              else
                match NewProvisioningProfileInfoFromFile provisioningProfilePath with
                | Err _ => ("", emptyProfile)
                | Ok profile => (bundleID, profile)
                end
          end
      | _ => ("", emptyProfile)
      end
  | _ => ("", emptyProfile)
  end.

(** The frameworks found under the application's [Frameworks] directory, in
    the order [Glob] lists them; none when the directory is missing or
    cannot be searched. *)
Definition frameworkPaths `{ArchiveEnv} (archive : IosArchive) : list string :=
  let frameworksPath := Join [Path (AppBase (Application archive)); "Frameworks"] in
  match IsPathExists frameworksPath with
  | Ok true =>
      let pattern := Join [EscapeGlobPath frameworksPath; "*.framework"] in
      match Glob pattern with
      | Ok frameworks => frameworks
      | Err _ => []
      end
  | _ => []
  end.

Definition getFrameworkBundleIDEntitlements `{ArchiveEnv} (archive : IosArchive)
    : gmap string PlistData :=
  fold_left
    (fun frameworkEntitlements frameworkPath =>
       let '(bundleID, entitlements) := extractFrameworkInfo frameworkPath in
       if negb (String.eqb bundleID "")
       then <[bundleID := entitlements]> frameworkEntitlements
       else frameworkEntitlements)
    (frameworkPaths archive) ∅.

Definition getFrameworkBundleIDProfiles `{ArchiveEnv} (archive : IosArchive)
    : gmap string ProvisioningProfileInfoModel :=
  fold_left
    (fun frameworkProfiles frameworkPath =>
       let '(bundleID, profile) := extractFrameworkProfileInfo frameworkPath in
       if negb (String.eqb bundleID "")
       then <[bundleID := profile]> frameworkProfiles
       else frameworkProfiles)
    (frameworkPaths archive) ∅.

Definition BundleIDEntitlementsMap `{ArchiveEnv} (archive : IosArchive)
    : gmap string PlistData :=
  let bundleIDEntitlementsMap : gmap string PlistData := ∅ in
  let bundleID := BundleIdentifier (AppBase (Application archive)) in
  let bundleIDEntitlementsMap :=
    <[bundleID := Entitlements (AppBase (Application archive))]>
      bundleIDEntitlementsMap in
  let bundleIDEntitlementsMap :=
    fold_left
      (fun m plugin =>
         <[BundleIdentifier (ExtensionBase plugin)
           := Entitlements (ExtensionBase plugin)]> m)
      (Extensions (Application archive)) bundleIDEntitlementsMap in
  let bundleIDEntitlementsMap :=
    match WatchApplication (Application archive) with
    | Some watchApplication =>
        fold_left
          (fun m plugin =>
             <[BundleIdentifier (ExtensionBase plugin)
               := Entitlements (ExtensionBase plugin)]> m)
          (WatchExtensions watchApplication)
          (<[BundleIdentifier (WatchBase watchApplication)
             := Entitlements (WatchBase watchApplication)]> bundleIDEntitlementsMap)
    | None => bundleIDEntitlementsMap
    end in
  let bundleIDEntitlementsMap :=
    match ClipApplication (Application archive) with
    | Some clipApplication =>
        <[BundleIdentifier (ClipBase clipApplication)
          := Entitlements (ClipBase clipApplication)]> bundleIDEntitlementsMap
    | None => bundleIDEntitlementsMap
    end in
  let frameworkEntitlements := getFrameworkBundleIDEntitlements archive in
  fold_left
    (fun m '(bundleID, entitlements) => <[bundleID := entitlements]> m)
    (rangeOf archiveMapRange frameworkEntitlements) bundleIDEntitlementsMap.

Definition BundleIDProfileInfoMap `{ArchiveEnv} (archive : IosArchive)
    : gmap string ProvisioningProfileInfoModel :=
  let bundleIDProfileMap : gmap string ProvisioningProfileInfoModel := ∅ in
  let bundleID := BundleIdentifier (AppBase (Application archive)) in
  let bundleIDProfileMap :=
    <[bundleID := ProvisioningProfile (AppBase (Application archive))]>
      bundleIDProfileMap in
  let bundleIDProfileMap :=
    fold_left
      (fun m plugin =>
         <[BundleIdentifier (ExtensionBase plugin)
           := ProvisioningProfile (ExtensionBase plugin)]> m)
      (Extensions (Application archive)) bundleIDProfileMap in
  let bundleIDProfileMap :=
    match WatchApplication (Application archive) with
    | Some watchApplication =>
        fold_left
          (fun m plugin =>
             <[BundleIdentifier (ExtensionBase plugin)
               := ProvisioningProfile (ExtensionBase plugin)]> m)
          (WatchExtensions watchApplication)
          (<[BundleIdentifier (WatchBase watchApplication)
             := ProvisioningProfile (WatchBase watchApplication)]> bundleIDProfileMap)
    | None => bundleIDProfileMap
    end in
  let bundleIDProfileMap :=
    match ClipApplication (Application archive) with
    | Some clipApplication =>
        <[BundleIdentifier (ClipBase clipApplication)
          := ProvisioningProfile (ClipBase clipApplication)]> bundleIDProfileMap
    | None => bundleIDProfileMap
    end in
  let frameworkProfiles := getFrameworkBundleIDProfiles archive in
  fold_left
    (fun m '(bundleID, profile) => <[bundleID := profile]> m)
    (rangeOf archiveMapRange frameworkProfiles) bundleIDProfileMap.

(** [TeamID]: the team of the first entry the map iteration visits. *)
Definition TeamID `{ArchiveEnv} (archive : IosArchive) : result string :=
  let bundleIDProfileInfoMap := BundleIDProfileInfoMap archive in
  match rangeOf archiveMapRange bundleIDProfileInfoMap with
  | (_, profileInfo) :: _ => Ok (ProfileUtil.TeamID profileInfo)
  | [] => Err "team id not found"
  end.

End XCArchive.

(** ** Sample data

    A concrete clock, a concrete container comparison and an in-memory
    archive, on which the definitions above are run. *)

Module Samples.

Definition lowerAscii (c : ascii) : ascii :=
  let n := nat_of_ascii c in
  if (65 <=? n)%nat && (n <=? 90)%nat then ascii_of_nat (n + 32) else c.

Fixpoint lowerString (s : string) : string :=
  match s with
  | EmptyString => EmptyString
  | String c rest => String (lowerAscii c) (lowerString rest)
  end.

Definition iCloudKey : string := "com.apple.developer.icloud-container-identifiers".

Definition containerNames (v : option value) : list string :=
  match v with
  | Some (VArray items) =>
      flat_map (fun item => match item with VString s => [s] | _ => [] end) items
  | _ => []
  end.

(** Containers the app asks for and the profile does not grant; an error when
    the app's entry is not an array. *)
Definition sampleFindMissingContainers (app profile : PlistData)
    : result (list string) :=
  match app !! iCloudKey with
  | Some (VArray _) | None =>
      Ok (List.filter
            (fun c => negb (LocalCodesignAsset.IsStringInSlice c
                              (containerNames (profile !! iCloudKey))))
            (containerNames (app !! iCloudKey)))
  | Some _ => Err "unexpected iCloud container list"
  end.

(** Instants are seconds; a day has 86400 of them. *)
Definition sampleEnv : MatchEnv := {|
  now := 1000000;
  AddDate := fun t years months days => t + 86400 * (365 * years + 30 * months + days);
  ToLower := lowerString;
  IsXcodeManaged := fun profile => String.prefix "XC" (Name profile);
  ICloudIdentifiersEntitlementKey := iCloudKey;
  FindMissingContainers := sampleFindMissingContainers;
  mapRange := canonicalRange
|}.

Definition acmeProfile (name : string) (ents : PlistData)
    : ProvisioningProfileInfoModel :=
  {| Name := name; ProfileUtil.TeamID := "TEAM123"; BundleID := "com.acme.app";
     ExportType := "app-store"; Type_ := "ios";
     ExpirationDate := 1000000 + 30 * 86400;
     DeveloperCertificates := [ {| Serial := "A1" |}; {| Serial := "B2" |} ];
     ProvisionedDevices := ["udid-1"; "udid-2"]; ProvisionsAllDevices := false;
     ProfileUtil.Entitlements := ents |}.

Definition acmeRequest (ents : PlistData) : LocalCodesignAsset.MatchRequest :=
  {| LocalCodesignAsset.platform := "iOS";
     LocalCodesignAsset.distributionType := "app-store";
     LocalCodesignAsset.bundleID := "com.acme.app";
     LocalCodesignAsset.entitlements := ents;
     LocalCodesignAsset.minProfileDaysValid := 7;
     LocalCodesignAsset.certSerials := ["A1"];
     LocalCodesignAsset.deviceUDIDs := [] |}.

Definition pushEntitlements : PlistData :=
  {[ "aps-environment" := VString "production" ]}.

Definition domainsEntitlements (b : bool) : PlistData :=
  {[ "com.apple.developer.associated-domains" := VBool b ]}.

Definition containerEntitlements (names : list string) : PlistData :=
  {[ iCloudKey := VArray (map VString names) ]}.

(** An archive on a read-only in-memory file system: one application with
    no watch app, no clip and no extension, and three frameworks.
    [Lib.framework] carries a provisioning profile and has no readable
    entitlements; [Broken.framework] carries a provisioning profile that
    cannot be decoded; [Plain.framework] carries none. *)
Definition archiveRoot : string := "/build/App.xcarchive".
Definition appDir : string := "/build/App.xcarchive/Products/Applications/App.app".
Definition libDir : string :=
  "/build/App.xcarchive/Products/Applications/App.app/Frameworks/Lib.framework".
Definition brokenDir : string :=
  "/build/App.xcarchive/Products/Applications/App.app/Frameworks/Broken.framework".
Definition plainDir : string :=
  "/build/App.xcarchive/Products/Applications/App.app/Frameworks/Plain.framework".

Definition existingPaths : list string :=
  [ archiveRoot +:+ "/Info.plist";
    appDir;
    appDir +:+ "/Info.plist";
    appDir +:+ "/embedded.mobileprovision";
    appDir +:+ "/Frameworks";
    brokenDir +:+ "/Info.plist";
    brokenDir +:+ "/embedded.mobileprovision";
    libDir +:+ "/Info.plist";
    libDir +:+ "/embedded.mobileprovision";
    plainDir +:+ "/Info.plist" ].

Definition appInfoPlist : PlistData :=
  {[ "CFBundleIdentifier" := VString "com.acme.app";
     "CFBundleExecutable" := VString "App" ]}.

Definition libInfoPlist : PlistData :=
  {[ "CFBundleIdentifier" := VString "com.acme.lib" ]}.

Definition brokenInfoPlist : PlistData :=
  {[ "CFBundleIdentifier" := VString "com.acme.broken" ]}.

Definition libProfile : ProvisioningProfileInfoModel :=
  {| Name := "Lib"; ProfileUtil.TeamID := "TEAM123"; BundleID := "com.acme.lib";
     ExportType := "app-store"; Type_ := "ios";
     ExpirationDate := 1000000 + 30 * 86400;
     DeveloperCertificates := []; ProvisionedDevices := [];
     ProvisionsAllDevices := false; ProfileUtil.Entitlements := ∅ |}.

Fixpoint lastComponent (current : string) (s : string) : string :=
  match s with
  | EmptyString => current
  | String c rest =>
      if Ascii.eqb c "/"%char then lastComponent EmptyString rest
      else lastComponent (current +:+ String c EmptyString) rest
  end.

Definition trimSuffix (s suffix : string) : string :=
  let n := (String.length s - String.length suffix)%nat in
  if String.eqb (String.substring n (String.length suffix) s) suffix
  then String.substring 0 n s else s.

Definition sampleFS : ArchiveEnv := {|
  Join := String.concat "/";
  Base := lastComponent EmptyString;
  TrimSuffix := trimSuffix;
  EscapeGlobPath := fun path => path;
  Glob := fun pattern =>
    if String.eqb pattern (archiveRoot +:+ "/Products/Applications/*.app")
    then Ok [appDir]
    else if String.eqb pattern (appDir +:+ "/Frameworks/*.framework")
    then Ok [brokenDir; libDir; plainDir]
    else Ok [];
  IsPathExists := fun path => Ok (existsb (String.eqb path) existingPaths);
  NewPlistDataFromFile := fun path =>
    if String.eqb path (archiveRoot +:+ "/Info.plist") then Ok ∅
    else if String.eqb path (appDir +:+ "/Info.plist") then Ok appInfoPlist
    else if String.eqb path (libDir +:+ "/Info.plist") then Ok libInfoPlist
    else if String.eqb path (brokenDir +:+ "/Info.plist") then Ok brokenInfoPlist
    else Err ("cannot decode " +:+ path);
  NewProvisioningProfileInfoFromFile := fun path =>
    if String.eqb path (appDir +:+ "/embedded.mobileprovision")
    then Ok (acmeProfile "Acme" pushEntitlements)
    else if String.eqb path (libDir +:+ "/embedded.mobileprovision")
    then Ok libProfile
    else Err ("cannot decode " +:+ path);
  GetMapStringInterface := fun _ _ => (∅, false);
  getEntitlements := fun path executable =>
    if String.eqb path appDir && String.eqb executable "App"
    then Ok pushEntitlements
    else Err ("no entitlements in " +:+ path);
  executableNameFromInfoPlist := fun infoPlist =>
    fst (GetString infoPlist "CFBundleExecutable");
  archiveMapRange := canonicalRange
|}.

Definition sampleBaseApplication : XCArchive.IosBaseApplication :=
  {| XCArchive.Path := appDir;
     XCArchive.InfoPlist := appInfoPlist;
     XCArchive.Entitlements := pushEntitlements;
     XCArchive.ProvisioningProfile := acmeProfile "Acme" pushEntitlements |}.

Definition sampleArchive : XCArchive.IosArchive :=
  {| XCArchive.ArchivePath := archiveRoot;
     XCArchive.ArchiveInfoPlist := ∅;
     XCArchive.Application :=
       {| XCArchive.AppBase := sampleBaseApplication;
          XCArchive.WatchApplication := None;
          XCArchive.ClipApplication := None;
          XCArchive.Extensions := [] |} |}.

(** An archive value in which an extension carries the application's own
    bundle ID. *)
Definition clashingExtension : XCArchive.IosExtension :=
  {| XCArchive.ExtensionBase :=
       {| XCArchive.Path := appDir +:+ "/PlugIns/Share.appex";
          XCArchive.InfoPlist := appInfoPlist;
          XCArchive.Entitlements := ∅;
          XCArchive.ProvisioningProfile := libProfile |} |}.

Definition clashingArchive : XCArchive.IosArchive :=
  {| XCArchive.ArchivePath := archiveRoot;
     XCArchive.ArchiveInfoPlist := ∅;
     XCArchive.Application :=
       {| XCArchive.AppBase := sampleBaseApplication;
          XCArchive.WatchApplication := None;
          XCArchive.ClipApplication := None;
          XCArchive.Extensions := [clashingExtension] |} |}.

End Samples.

(** ** Specification-side notions *)

Module Spec.

(** [FirstAccepted accepts profiles profile]: [profile] is the first element
    of [profiles], in input order, that [accepts] holds of. *)
Definition FirstAccepted {A : Type} (accepts : A -> bool) (items : list A) (item : A)
    : Prop :=
  exists before after : list A,
    items = (before ++ item :: after)%list /\
    accepts item = true /\
    forall other, other ∈ before -> accepts other = false.

(** The binding a sequence of map assignments [m[k] = v] leaves under [key]:
    that of the last assignment to [key], none when [key] was never assigned. *)
Fixpoint lastBinding {V : Type} (key : string) (entries : list (string * V))
    : option V :=
  match entries with
  | [] => None
  | (k, v) :: rest =>
      match lastBinding key rest with
      | Some later => Some later
      | None => if String.eqb k key then Some v else None
      end
  end.

(** The seven filters both predicates of the engine share, with the result of
    the entitlement comparison left open. *)
Definition sharedFilters `{MatchEnv} (entitlementsOk : bool)
    (profile : ProvisioningProfileInfoModel) (r : LocalCodesignAsset.MatchRequest)
    : bool :=
  LocalCodesignAsset.isActive profile (LocalCodesignAsset.minProfileDaysValid r)
  && LocalCodesignAsset.hasMatchingDistributionType profile
       (LocalCodesignAsset.distributionType r)
  && LocalCodesignAsset.hasMatchingBundleID profile (LocalCodesignAsset.bundleID r)
  && LocalCodesignAsset.hasMatchingPlatform profile (LocalCodesignAsset.platform r)
  && LocalCodesignAsset.hasMatchingLocalCertificates profile
       (LocalCodesignAsset.certSerials r)
  && entitlementsOk
  && LocalCodesignAsset.provisionsDevices profile (LocalCodesignAsset.deviceUDIDs r).

Import XCArchive.

(** The identities of the application tree, each with the projection [field]
    of its base: the primary application, its extensions, the watch
    application and its extensions, the clip application. *)
Definition treeIdentities {V : Type} (field : IosBaseApplication -> V)
    (archive : IosArchive) : list (string * V) :=
  let entry base := (BundleIdentifier base, field base) in
  let app := Application archive in
  ([entry (AppBase app)]
   ++ map (fun plugin => entry (ExtensionBase plugin)) (Extensions app)
   ++ match WatchApplication app with
      | Some watch =>
          entry (WatchBase watch)
          :: map (fun plugin => entry (ExtensionBase plugin)) (WatchExtensions watch)
      | None => []
      end
   ++ match ClipApplication app with
      | Some clip => [entry (ClipBase clip)]
      | None => []
      end)%list.

(** The qualifying frameworks, in directory-search order: those for which the
    extractor [extract] yields a non-empty bundle ID. *)
Definition qualifyingFrameworks {V : Type} (extract : string -> string * V)
    (paths : list string) : list (string * V) :=
  List.filter (fun entry => negb (String.eqb (fst entry) "")) (map extract paths).

Definition entitlementIdentities `{ArchiveEnv} (archive : IosArchive)
    : list (string * PlistData) :=
  (treeIdentities Entitlements archive
   ++ qualifyingFrameworks extractFrameworkInfo (frameworkPaths archive))%list.

Definition profileIdentities `{ArchiveEnv} (archive : IosArchive)
    : list (string * ProvisioningProfileInfoModel) :=
  (treeIdentities ProvisioningProfile archive
   ++ qualifyingFrameworks extractFrameworkProfileInfo (frameworkPaths archive))%list.

End Spec.

(** ** The export command ([step], ipa_export.go) *)

(** What [runIPAExportCommand] takes from outside: the formatter name
    [XcodebuildTool], a constant of the package declared in another file, and
    the command runner ([xcodecommand.Runner]), whose [Run] returns the raw
    output together with an error that may be nil. *)
Class StepEnv : Type := {
  XcodebuildTool : string;
  Run : string -> list string -> list string -> string * option string
}.

Module Step.

(** [runIPAExportCommand].  The export command enters through its
    [CommandArgs()], the logger is the list of lines printed so far, and the
    Go pair [(string, error)] is kept as a pair: the output is returned
    whether or not the error is nil. *)
Definition runIPAExportCommand `{StepEnv} (logFormatter : string)
    (cmdArgs : list string) (logger : list string)
    : list string * (string * option string) :=
  let logger :=
    (logger ++ ["Running xcodebuild command: xcodebuild " +:+ String.concat " " cmdArgs])%list in
  let '(RawOut, err) := Run "" cmdArgs [] in
  let logger :=
    if String.eqb logFormatter XcodebuildTool
    then (logger ++ [RawOut])%list
    else logger in
  (logger, (RawOut, err)).

End Step.

(** ** Environments that differ in the map iteration order only *)

Definition withRange (env : MatchEnv) (order : MapRange) : MatchEnv :=
  {| now := @now env;
     AddDate := @AddDate env;
     ToLower := @ToLower env;
     IsXcodeManaged := @IsXcodeManaged env;
     ICloudIdentifiersEntitlementKey := @ICloudIdentifiersEntitlementKey env;
     FindMissingContainers := @FindMissingContainers env;
     mapRange := order |}.

(** A second iteration order: the canonical one reversed. *)
Definition reversedRange : MapRange :=
  {| rangeOf := fun V m => rev (map_to_list m);
     rangeOf_perm := fun V m => Permutation_sym (Permutation_rev (map_to_list m)) |}.

(** ** A second sample: an archive with nested bundles

    The archive manifest names the application; the application has two
    extensions, a clip, and a watch directory with two entries of which the
    second is an empty directory; the first watch application has an
    extension of its own. *)

Module Nested.
Import Samples.

Fixpoint lookupTable {A : Type} (table : list (string * A)) (key : string)
    : option A :=
  match table with
  | [] => None
  | (k, a) :: rest => if String.eqb k key then Some a else lookupTable rest key
  end.

Definition root : string := "/n/App.xcarchive".
Definition app : string := "/n/App.xcarchive/Products/Applications/App.app".
Definition one : string := app +:+ "/PlugIns/One.appex".
Definition two : string := app +:+ "/PlugIns/Two.appex".
Definition clip : string := app +:+ "/AppClips/Clip.app".
Definition watchA : string := app +:+ "/Watch/A.app".
Definition watchB : string := app +:+ "/Watch/B.app".
Definition watchExtension : string := watchA +:+ "/PlugIns/W.appex".

Definition bundles : list (string * string) :=
  [ (app, "com.acme.app"); (one, "com.acme.one"); (two, "com.acme.two");
    (clip, "com.acme.clip"); (watchA, "com.acme.watch");
    (watchExtension, "com.acme.watch.ext") ].

Definition manifestOf (bundleID : string) : PlistData :=
  {[ "CFBundleIdentifier" := VString bundleID ]}.

Definition profileOf (bundleID : string) : ProvisioningProfileInfoModel :=
  {| Name := bundleID; ProfileUtil.TeamID := "TEAM123"; BundleID := bundleID;
     ExportType := "app-store"; Type_ := "ios";
     ExpirationDate := 1000000 + 30 * 86400;
     DeveloperCertificates := []; ProvisionedDevices := [];
     ProvisionsAllDevices := false; ProfileUtil.Entitlements := ∅ |}.

Definition archiveManifest : PlistData :=
  {[ "ArchiveVersion" := VInteger 2 ]}.

Definition applicationProperties : PlistData :=
  {[ "ApplicationPath" := VString "Applications/App.app";
     "SigningIdentity" := VString "Apple Distribution" ]}.

Definition searches : list (string * list string) :=
  [ (app +:+ "/PlugIns/*.appex", [one; two]);
    (app +:+ "/AppClips/*.app", [clip]);
    (app +:+ "/Watch/*.app", [watchA; watchB]);
    (watchA +:+ "/PlugIns/*.appex", [watchExtension]) ].

Definition fileOf {A : Type} (name : string) (content : string -> A)
    (path : string) : result A :=
  match
    lookupTable (map (fun b => (fst b +:+ "/" +:+ name, content (snd b))) bundles)
      path
  with
  | Some a => Ok a
  | None => Err ("cannot decode " +:+ path)
  end.

Definition nestedFS : ArchiveEnv := {|
  Join := String.concat "/";
  Base := lastComponent EmptyString;
  TrimSuffix := trimSuffix;
  EscapeGlobPath := fun path => path;
  Glob := fun pattern =>
    match lookupTable searches pattern with
    | Some found => Ok found
    | None => Ok []
    end;
  IsPathExists := fun path =>
    Ok (String.eqb path (root +:+ "/Info.plist")
        || existsb (fun b => String.eqb path (fst b)
                             || String.eqb path (fst b +:+ "/Info.plist")
                             || String.eqb path (fst b +:+ "/embedded.mobileprovision"))
             bundles);
  NewPlistDataFromFile := fun path =>
    if String.eqb path (root +:+ "/Info.plist") then Ok archiveManifest
    else fileOf "Info.plist" manifestOf path;
  NewProvisioningProfileInfoFromFile := fileOf "embedded.mobileprovision" profileOf;
  GetMapStringInterface := fun data forKey =>
    match data !! "ArchiveVersion" with
    | Some _ =>
        if String.eqb forKey "ApplicationProperties"
        then (applicationProperties, true) else (∅, false)
    | None => (∅, false)
    end;
  getEntitlements := fun path executable => Ok (manifestOf path);
  executableNameFromInfoPlist := fun infoPlist =>
    fst (GetString infoPlist "CFBundleExecutable");
  archiveMapRange := reversedRange
|}.

Definition bundle (path bundleID : string) : XCArchive.IosBaseApplication :=
  {| XCArchive.Path := path;
     XCArchive.InfoPlist := manifestOf bundleID;
     XCArchive.Entitlements := manifestOf path;
     XCArchive.ProvisioningProfile := profileOf bundleID |}.

Definition extension (path bundleID : string) : XCArchive.IosExtension :=
  {| XCArchive.ExtensionBase := bundle path bundleID |}.

Definition nestedApplication : XCArchive.IosApplication :=
  {| XCArchive.AppBase := bundle app "com.acme.app";
     XCArchive.WatchApplication :=
       Some {| XCArchive.WatchBase := bundle watchA "com.acme.watch";
               XCArchive.WatchExtensions :=
                 [extension watchExtension "com.acme.watch.ext"] |};
     XCArchive.ClipApplication :=
       Some {| XCArchive.ClipBase := bundle clip "com.acme.clip" |};
     XCArchive.Extensions :=
       [extension one "com.acme.one"; extension two "com.acme.two"] |}.

Definition nestedArchive : XCArchive.IosArchive :=
  {| XCArchive.ArchivePath := root;
     XCArchive.ArchiveInfoPlist := archiveManifest;
     XCArchive.Application := nestedApplication |}.

(** A runner that fails after printing. *)
Definition failingRunner : StepEnv :=
  {| XcodebuildTool := "xcodebuild";
     Run := fun dir args env => ("error: exportArchive failed", Some "exit status 70") |}.

End Nested.

(** * Properties *)

(** ** Deep equality *)

Section ValueInduction.
Variable P : value -> Prop.
Hypothesis HBool : forall b, P (VBool b).
Hypothesis HString : forall s, P (VString s).
Hypothesis HInteger : forall n, P (VInteger n).
Hypothesis HArray : forall l, Forall P l -> P (VArray l).

Fixpoint value_nested_ind (v : value) : P v :=
  match v with
  | VBool b => HBool b
  | VString s => HString s
  | VInteger n => HInteger n
  | VArray l =>
      HArray l
        ((fix all (l : list value) : Forall P l :=
            match l with
            | [] => List.Forall_nil P
            | x :: rest => List.Forall_cons P x rest (value_nested_ind x) (all rest)
            end) l)
  end.
End ValueInduction.

Lemma valueDeepEqual_spec (a b : value) : valueDeepEqual a b = true <-> a = b.
Proof.
  revert b. induction a as [x | x | x | xs IH] using value_nested_ind;
    intros [y | y | y | ys]; simpl; try (split; [discriminate | congruence]).
  - rewrite Bool.eqb_true_iff. split; congruence.
  - rewrite String.eqb_eq. split; congruence.
  - rewrite Z.eqb_eq. split; congruence.
  - revert ys. induction IH as [| x xs Hx _ IHxs]; intros [| y ys];
      try (split; [discriminate | congruence]); [tauto |].
    rewrite andb_true_iff, Hx. specialize (IHxs ys).
    split.
    + intros [-> Hrest]. apply IHxs in Hrest. congruence.
    + intros Heq. injection Heq as -> ->. split; [reflexivity |].
      apply IHxs. reflexivity.
Qed.

Lemma DeepEqual_spec (a b : option value) : DeepEqual a b = true <-> a = b.
Proof.
  destruct a as [x |], b as [y |]; simpl;
    try (split; [discriminate | congruence]); [| tauto].
  rewrite valueDeepEqual_spec. split; congruence.
Qed.

(** ** Loops over slices and maps *)

Section Loops.
Import LocalCodesignAsset.

Lemma IsStringInSlice_elem (value : string) (list : list string) :
  IsStringInSlice value list = true <-> value ∈ list.
Proof.
  induction list as [| item rest IH]; simpl.
  - split; [discriminate | intros Hin; inversion Hin].
  - destruct (String.eqb_spec item value) as [-> | Hne].
    + split; [intros _; left | reflexivity].
    + rewrite IH, elem_of_cons. split; [tauto | intros [Heq | Hin]; congruence].
Qed.

Lemma contains_elem (haystack : list string) (needle : string) :
  contains haystack needle = true <-> needle ∈ haystack.
Proof.
  induction haystack as [| item rest IH]; simpl.
  - split; [discriminate | intros Hin; inversion Hin].
  - destruct (String.eqb_spec item needle) as [-> | Hne].
    + split; [intros _; left | reflexivity].
    + rewrite IH, elem_of_cons. split; [tauto | intros [Heq | Hin]; congruence].
Qed.

Lemma rangeAccepts_true {A : Type} (body : A -> bool) (items : list A) :
  rangeAccepts body items = true <-> forall item, item ∈ items -> body item = true.
Proof.
  induction items as [| item rest IH]; simpl.
  - split; [intros _ x Hx; inversion Hx | reflexivity].
  - destruct (body item) eqn:Hbody.
    + rewrite IH. split.
      * intros Hrest x Hx. apply elem_of_cons in Hx as [-> | Hx]; auto.
      * intros Hall x Hx. apply Hall. right. exact Hx.
    + split; [discriminate |].
      intros Hall. rewrite <- Hbody. apply Hall. left.
Qed.

Lemma rangeAccepts_false {A : Type} (body : A -> bool) (items : list A) :
  rangeAccepts body items = false <-> exists item, item ∈ items /\ body item = false.
Proof.
  induction items as [| item rest IH]; simpl.
  - split; [discriminate | intros (x & Hx & _); inversion Hx].
  - destruct (body item) eqn:Hbody.
    + rewrite IH. split.
      * intros (x & Hx & Hfalse). exists x. split; [right |]; assumption.
      * intros (x & Hx & Hfalse). apply elem_of_cons in Hx as [-> | Hx];
          [congruence | eauto].
    + split; [| reflexivity]. intros _. exists item. split; [left | assumption].
Qed.

(** A loop over a map rejects or accepts whatever the iteration order. *)
Lemma rangeAccepts_map {V : Type} (order : MapRange) (body : string * V -> bool)
    (m : gmap string V) :
  rangeAccepts body (rangeOf order m) = true
  <-> forall key v, m !! key = Some v -> body (key, v) = true.
Proof.
  rewrite rangeAccepts_true. split.
  - intros Hall key v Hlookup. apply Hall.
    rewrite (rangeOf_perm order V m). apply elem_of_map_to_list. exact Hlookup.
  - intros Hall [key v] Hin. apply Hall.
    rewrite (rangeOf_perm order V m) in Hin. apply elem_of_map_to_list in Hin.
    exact Hin.
Qed.

Lemma firstAccepted_Some (accepts : ProvisioningProfileInfoModel -> bool)
    (localProfiles : list ProvisioningProfileInfoModel)
    (profile : ProvisioningProfileInfoModel) :
  firstAccepted accepts localProfiles = Some profile
  <-> Spec.FirstAccepted accepts localProfiles profile.
Proof.
  unfold Spec.FirstAccepted.
  induction localProfiles as [| candidate rest IH]; simpl.
  - split; [discriminate |].
    intros (before & after & Heq & _). destruct before; discriminate.
  - destruct (accepts candidate) eqn:Hcandidate.
    + split.
      * intros [= <-]. exists [], rest. repeat split; [assumption |].
        intros other Hin. inversion Hin.
      * intros ([| first before] & after & Heq & Hok & Hbefore).
        -- simpl in Heq. congruence.
        -- simpl in Heq. injection Heq as <- _.
           rewrite (Hbefore candidate) in Hcandidate; [discriminate | left].
    + rewrite IH. split.
      * intros (before & after & -> & Hok & Hbefore).
        exists (candidate :: before), after. repeat split; [assumption |].
        intros other Hin. apply elem_of_cons in Hin as [-> | Hin]; auto.
      * intros ([| first before] & after & Heq & Hok & Hbefore).
        -- simpl in Heq. injection Heq as <- _. congruence.
        -- simpl in Heq. injection Heq as <- ->.
           exists before, after. repeat split; [assumption |].
           intros other Hin. apply Hbefore. right. exact Hin.
Qed.

Lemma firstAccepted_None (accepts : ProvisioningProfileInfoModel -> bool)
    (localProfiles : list ProvisioningProfileInfoModel) :
  firstAccepted accepts localProfiles = None
  <-> forall profile, profile ∈ localProfiles -> accepts profile = false.
Proof.
  induction localProfiles as [| candidate rest IH]; simpl.
  - split; [intros _ p Hp; inversion Hp | reflexivity].
  - destruct (accepts candidate) eqn:Hcandidate.
    + split; [discriminate |]. intros Hall.
      rewrite (Hall candidate) in Hcandidate; [discriminate | left].
    + rewrite IH. split.
      * intros Hrest p Hp. apply elem_of_cons in Hp as [-> | Hp]; auto.
      * intros Hall p Hp. apply Hall. right. exact Hp.
Qed.

Lemma firstAccepted_accepts (accepts : ProvisioningProfileInfoModel -> bool)
    (localProfiles : list ProvisioningProfileInfoModel)
    (profile : ProvisioningProfileInfoModel) :
  firstAccepted accepts localProfiles = Some profile ->
  accepts profile = true /\ profile ∈ localProfiles.
Proof.
  rewrite firstAccepted_Some. intros (before & after & -> & Hok & _).
  split; [assumption |]. apply elem_of_app. right. left.
Qed.
End Loops.

(** ** The profile matching engine *)

Section MatchingEngine.
Import LocalCodesignAsset.
Context `{MatchEnv}.

Implicit Types (profile : ProvisioningProfileInfoModel) (r : MatchRequest).
Implicit Types (localProfiles : list ProvisioningProfileInfoModel).
Implicit Types (appEntitlements : PlistData).

Lemma isProfileMatching_filters profile r :
  isProfileMatching profile r
  = Spec.sharedFilters (containsAllAppEntitlements profile (entitlements r)) profile r
    && negb (IsXcodeManaged profile).
Proof.
  unfold isProfileMatching, Spec.sharedFilters.
  destruct (isActive _ _), (hasMatchingDistributionType _ _),
    (hasMatchingBundleID _ _), (hasMatchingPlatform _ _),
    (hasMatchingLocalCertificates _ _), (containsAllAppEntitlements _ _),
    (provisionsDevices _ _), (IsXcodeManaged _); reflexivity.
Qed.

Lemma isProfileMatchingWithSuperset_filters profile r :
  isProfileMatchingWithSuperset profile r
  = Spec.sharedFilters (profileSupportsAppEntitlements profile (entitlements r)) profile r.
Proof.
  unfold isProfileMatchingWithSuperset, Spec.sharedFilters.
  destruct (isActive _ _), (hasMatchingDistributionType _ _),
    (hasMatchingBundleID _ _), (hasMatchingPlatform _ _),
    (hasMatchingLocalCertificates _ _), (profileSupportsAppEntitlements _ _),
    (provisionsDevices _ _); reflexivity.
Qed.

Lemma sharedFilters_active ok profile r :
  Spec.sharedFilters ok profile r = true -> isActive profile (minProfileDaysValid r) = true.
Proof.
  unfold Spec.sharedFilters. rewrite !andb_true_iff. tauto.
Qed.

Lemma containsAllAppEntitlements_true profile appEntitlements :
  containsAllAppEntitlements profile appEntitlements = true
  <-> forall key v, appEntitlements !! key = Some v ->
        exactEntry appEntitlements (Entitlements profile) (key, v) = true.
Proof.
  rewrite <- (rangeAccepts_map mapRange). unfold containsAllAppEntitlements.
  destruct (rangeAccepts _ _); simpl; split; intros Heq;
    solve [reflexivity | discriminate Heq].
Qed.

Lemma profileSupportsAppEntitlements_true profile appEntitlements :
  profileSupportsAppEntitlements profile appEntitlements = true
  <-> forall key v, appEntitlements !! key = Some v ->
        supersetEntry appEntitlements (Entitlements profile) (key, v) = true.
Proof.
  unfold profileSupportsAppEntitlements. apply rangeAccepts_map.
Qed.

Lemma profileSupportsAppEntitlements_rejects profile appEntitlements key v :
  appEntitlements !! key = Some v ->
  supersetEntry appEntitlements (Entitlements profile) (key, v) = false ->
  profileSupportsAppEntitlements profile appEntitlements = false.
Proof.
  intros Hlookup Hentry.
  destruct (profileSupportsAppEntitlements profile appEntitlements) eqn:Hall;
    [| reflexivity].
  rewrite profileSupportsAppEntitlements_true in Hall.
  rewrite (Hall key v Hlookup) in Hentry. discriminate.
Qed.

Lemma containsAllAppEntitlements_rejects profile appEntitlements key v :
  appEntitlements !! key = Some v ->
  exactEntry appEntitlements (Entitlements profile) (key, v) = false ->
  containsAllAppEntitlements profile appEntitlements = false.
Proof.
  intros Hlookup Hentry.
  destruct (containsAllAppEntitlements profile appEntitlements) eqn:Hall;
    [| reflexivity].
  rewrite containsAllAppEntitlements_true in Hall.
  rewrite (Hall key v Hlookup) in Hentry. discriminate.
Qed.

Lemma exactEntry_supersetEntry appEntitlements (profileEntitlements : PlistData)
    (entry : string * value) :
  exactEntry appEntitlements profileEntitlements entry = true ->
  supersetEntry appEntitlements profileEntitlements entry = true.
Proof.
  destruct entry as [key v]. unfold exactEntry, supersetEntry.
  destruct (String.eqb key ICloudIdentifiersEntitlementKey); [tauto |].
  destruct (DeepEqual (profileEntitlements !! key) (Some v)); simpl;
    [reflexivity | discriminate].
Qed.

Lemma iCloudContainersCovered_true appEntitlements (profileEntitlements : PlistData) :
  iCloudContainersCovered appEntitlements profileEntitlements = true
  <-> FindMissingContainers appEntitlements profileEntitlements = Ok [].
Proof.
  unfold iCloudContainersCovered.
  destruct (FindMissingContainers _ _) as [[| c rest] | e]; simpl.
  - tauto.
  - split; [discriminate | congruence].
  - split; [discriminate | congruence].
Qed.

Lemma exactEntry_other appEntitlements (profileEntitlements : PlistData) key v :
  key <> ICloudIdentifiersEntitlementKey ->
  exactEntry appEntitlements profileEntitlements (key, v)
  = DeepEqual (profileEntitlements !! key) (Some v).
Proof.
  intros Hne. unfold exactEntry.
  destruct (String.eqb_spec key ICloudIdentifiersEntitlementKey); [contradiction |].
  destruct (DeepEqual _ _); reflexivity.
Qed.

Lemma entry_iCloud appEntitlements (profileEntitlements : PlistData) v :
  exactEntry appEntitlements profileEntitlements (ICloudIdentifiersEntitlementKey, v)
  = iCloudContainersCovered appEntitlements profileEntitlements
  /\ supersetEntry appEntitlements profileEntitlements
       (ICloudIdentifiersEntitlementKey, v)
     = iCloudContainersCovered appEntitlements profileEntitlements.
Proof.
  unfold exactEntry, supersetEntry. rewrite String.eqb_refl. split; reflexivity.
Qed.

(** C1. [findProfile] scans the profiles in input order with the exact
    predicate and returns the first one it accepts; only when the exact pass
    accepts none does it scan the same list with the superset predicate and
    return the first one that accepts; when neither pass accepts a profile
    the result is the no-match value [None], never an error. *)
Theorem findProfile_two_passes localProfiles r :
  (forall profile,
     findProfile localProfiles r = Some profile
     <-> Spec.FirstAccepted (fun p => isProfileMatching p r) localProfiles profile
         \/ ((forall p, p ∈ localProfiles -> isProfileMatching p r = false)
             /\ Spec.FirstAccepted (fun p => isProfileMatchingWithSuperset p r)
                  localProfiles profile))
  /\ (findProfile localProfiles r = None
      <-> forall p, p ∈ localProfiles ->
            isProfileMatching p r = false
            /\ isProfileMatchingWithSuperset p r = false).
Proof.
  unfold findProfile.
  destruct (firstAccepted (fun p => isProfileMatching p r) localProfiles)
    as [exact |] eqn:Hexact.
  - pose proof (firstAccepted_accepts _ _ _ Hexact) as [Hok Hin].
    split.
    + intros profile. rewrite <- firstAccepted_Some, Hexact. split.
      * intros Heq. left. exact Heq.
      * intros [Heq | [Hnone _]]; [exact Heq |].
        rewrite (Hnone exact Hin) in Hok. discriminate.
    + split; [discriminate |]. intros Hnone.
      destruct (Hnone exact Hin) as [Hfalse _]. congruence.
  - rewrite firstAccepted_None in Hexact. split.
    + intros profile. rewrite <- !firstAccepted_Some.
      destruct (firstAccepted (fun p => isProfileMatchingWithSuperset p r)
                  localProfiles) as [superset |] eqn:Hsuperset.
      * split; [intros Heq; right; split; assumption |].
        intros [Hfirst | [_ Heq]]; [| exact Heq].
        apply firstAccepted_accepts in Hfirst as [Hok Hin].
        rewrite (Hexact profile Hin) in Hok. discriminate.
      * split; [discriminate |].
        intros [Hfirst | [_ Heq]]; [| exact Heq].
        apply firstAccepted_accepts in Hfirst as [Hok Hin].
        rewrite (Hexact profile Hin) in Hok. discriminate.
    + destruct (firstAccepted (fun p => isProfileMatchingWithSuperset p r)
                  localProfiles) as [superset |] eqn:Hsuperset.
      * split; [discriminate |]. intros Hnone.
        apply firstAccepted_accepts in Hsuperset as [Hok Hin].
        destruct (Hnone superset Hin) as [_ Hfalse]. congruence.
      * rewrite firstAccepted_None in Hsuperset. split; [| reflexivity].
        intros _ p Hin. split; [apply Hexact | apply Hsuperset]; exact Hin.
Qed.

(** C3. Exact-mode matching implies superset-mode matching: whenever
    [containsAllAppEntitlements] accepts, [profileSupportsAppEntitlements]
    accepts, and whenever [isProfileMatching] accepts a profile for a request,
    [isProfileMatchingWithSuperset] accepts it too. *)
Theorem exact_match_implies_superset_match profile r :
  (forall appEntitlements,
     containsAllAppEntitlements profile appEntitlements = true ->
     profileSupportsAppEntitlements profile appEntitlements = true)
  /\ (isProfileMatching profile r = true ->
      isProfileMatchingWithSuperset profile r = true).
Proof.
  assert (Hents : forall appEntitlements,
             containsAllAppEntitlements profile appEntitlements = true ->
             profileSupportsAppEntitlements profile appEntitlements = true).
  { intros appEntitlements.
    rewrite containsAllAppEntitlements_true, profileSupportsAppEntitlements_true.
    intros Hall key v Hlookup. apply exactEntry_supersetEntry, Hall, Hlookup. }
  split; [exact Hents |].
  rewrite isProfileMatching_filters, isProfileMatchingWithSuperset_filters.
  unfold Spec.sharedFilters. rewrite !andb_true_iff.
  intros [[[[[[[Ha Hd] Hb] Hp] Hc] He] Hdev] _].
  repeat split; try assumption. apply Hents, He.
Qed.

(** C4. [isActive] holds exactly when the clock reading moved forward by
    [minProfileDaysValid] days is strictly before the profile's expiration;
    for a non-positive window it holds exactly when the clock reading itself
    is strictly before the expiration; and a profile that is not active for
    the request's window is returned by neither pass of [findProfile]. *)
Theorem isActive_window_and_findProfile profile (days : Z) localProfiles r :
  (0 < days ->
   (isActive profile days = true <-> AddDate now 0 0 days < ExpirationDate profile))
  /\ (days <= 0 ->
      (isActive profile days = true <-> now < ExpirationDate profile))
  /\ (isActive profile (minProfileDaysValid r) = false ->
      firstAccepted (fun p => isProfileMatching p r) localProfiles <> Some profile
      /\ firstAccepted (fun p => isProfileMatchingWithSuperset p r) localProfiles
         <> Some profile
      /\ findProfile localProfiles r <> Some profile).
Proof.
  unfold isActive. repeat split.
  - destruct (Z.ltb_spec 0 days); [| lia]. apply Z.ltb_lt.
  - destruct (Z.ltb_spec 0 days); [| lia]. apply Z.ltb_lt.
  - destruct (Z.ltb_spec 0 days); [lia |]. apply Z.ltb_lt.
  - destruct (Z.ltb_spec 0 days); [lia |]. apply Z.ltb_lt.
  - intros Hfound. apply firstAccepted_accepts in Hfound as [Hok _].
    rewrite isProfileMatching_filters, andb_true_iff in Hok.
    destruct Hok as [Hok _]. apply sharedFilters_active in Hok.
    unfold isActive in Hok. congruence.
  - intros Hfound. apply firstAccepted_accepts in Hfound as [Hok _].
    rewrite isProfileMatchingWithSuperset_filters in Hok.
    apply sharedFilters_active in Hok. unfold isActive in Hok. congruence.
  - unfold findProfile. intros Hfound.
    destruct (firstAccepted (fun p => isProfileMatching p r) localProfiles)
      as [exact |] eqn:Hexact.
    + injection Hfound as ->.
      apply firstAccepted_accepts in Hexact as [Hok _].
      rewrite isProfileMatching_filters, andb_true_iff in Hok.
      destruct Hok as [Hok _]. apply sharedFilters_active in Hok.
      unfold isActive in Hok. congruence.
    + destruct (firstAccepted (fun p => isProfileMatchingWithSuperset p r)
                  localProfiles) as [superset |] eqn:Hsuperset; [| discriminate].
      injection Hfound as ->.
      apply firstAccepted_accepts in Hsuperset as [Hok _].
      rewrite isProfileMatchingWithSuperset_filters in Hok.
      apply sharedFilters_active in Hok. unfold isActive in Hok. congruence.
Qed.

(** C2. A tool-managed profile is never returned by pass 1, whatever the
    other filters say; pass 2 has no tool-managed exclusion: it is the
    conjunction of the seven remaining filters with the superset comparison,
    so a tool-managed profile passing them is accepted by pass 2 and is what
    [findProfile] returns when no earlier profile passes pass 2 and no
    profile passes pass 1. *)
Theorem managed_profile_only_in_second_pass profile r
    (Hmanaged : IsXcodeManaged profile = true) :
  isProfileMatching profile r = false
  /\ (forall localProfiles,
        firstAccepted (fun p => isProfileMatching p r) localProfiles <> Some profile)
  /\ isProfileMatchingWithSuperset profile r
     = Spec.sharedFilters (profileSupportsAppEntitlements profile (entitlements r))
         profile r
  /\ (Spec.sharedFilters (profileSupportsAppEntitlements profile (entitlements r))
        profile r = true ->
      isProfileMatchingWithSuperset profile r = true
      /\ forall before after,
           (forall p, p ∈ before -> isProfileMatchingWithSuperset p r = false) ->
           (forall p, p ∈ (before ++ profile :: after)%list ->
                      isProfileMatching p r = false) ->
           findProfile (before ++ profile :: after)%list r = Some profile).
Proof.
  assert (Hexact : isProfileMatching profile r = false).
  { rewrite isProfileMatching_filters, Hmanaged. apply andb_false_r. }
  split; [exact Hexact |]. split; [| split].
  - intros localProfiles Hfound.
    apply firstAccepted_accepts in Hfound as [Hok _]. congruence.
  - apply isProfileMatchingWithSuperset_filters.
  - intros Hfilters.
    assert (Hsuperset : isProfileMatchingWithSuperset profile r = true).
    { rewrite isProfileMatchingWithSuperset_filters. exact Hfilters. }
    split; [exact Hsuperset |].
    intros before after Hbefore Hnone.
    unfold findProfile.
    rewrite (proj2 (firstAccepted_None _ _) Hnone).
    assert (Hfirst : firstAccepted (fun p => isProfileMatchingWithSuperset p r)
                       (before ++ profile :: after)%list = Some profile).
    { apply firstAccepted_Some. exists before, after. repeat split; assumption. }
    rewrite Hfirst. reflexivity.
Qed.

(** C5. Superset mode, for a key the app requires other than the iCloud
    container key: a profile value deep-equal to the required one lets the
    key pass, and so does a required [false] against a profile's [true] (the
    outcome is then decided by the other keys); a key the profile does not
    define fails the match; a required [true] against a profile's [false]
    fails it; a required value that is not a boolean and differs from the
    profile's fails it. *)
Theorem superset_mode_per_key profile appEntitlements key v
    (Hrequired : appEntitlements !! key = Some v)
    (Hother : key <> ICloudIdentifiersEntitlementKey) :
  let profileValue := Entitlements profile !! key in
  let othersPass :=
    forall key' v', key' <> key -> appEntitlements !! key' = Some v' ->
      supersetEntry appEntitlements (Entitlements profile) (key', v') = true in
  (DeepEqual profileValue (Some v) = true ->
   (profileSupportsAppEntitlements profile appEntitlements = true <-> othersPass))
  /\ (v = VBool false -> profileValue = Some (VBool true) ->
      (profileSupportsAppEntitlements profile appEntitlements = true <-> othersPass))
  /\ (profileValue = None ->
      profileSupportsAppEntitlements profile appEntitlements = false)
  /\ (v = VBool true -> profileValue = Some (VBool false) ->
      profileSupportsAppEntitlements profile appEntitlements = false)
  /\ (asBool (Some v) = None -> DeepEqual profileValue (Some v) = false ->
      profileSupportsAppEntitlements profile appEntitlements = false).
Proof.
  intros profileValue othersPass.
  assert (Hentry : forall outcome,
             supersetEntry appEntitlements (Entitlements profile) (key, v) = outcome ->
             if outcome
             then profileSupportsAppEntitlements profile appEntitlements = true
                  <-> othersPass
             else profileSupportsAppEntitlements profile appEntitlements = false).
  { intros [|] Hkey.
    - rewrite profileSupportsAppEntitlements_true. split.
      + intros Hall key' v' _ Hlookup. apply Hall, Hlookup.
      + intros Hothers key' v' Hlookup.
        destruct (decide (key' = key)) as [-> | Hne]; [| apply Hothers; assumption].
        rewrite Hrequired in Hlookup. injection Hlookup as <-. exact Hkey.
    - eapply profileSupportsAppEntitlements_rejects; eassumption. }
  assert (Hbody : supersetEntry appEntitlements (Entitlements profile) (key, v)
                  = if negb (DeepEqual profileValue (Some v)) then
                      match profileValue with
                      | None => false
                      | Some _ =>
                          match asBool (Some v) with
                          | Some appBool =>
                              match asBool profileValue with
                              | Some profileBool =>
                                  if appBool && negb profileBool then false else true
                              | None => true
                              end
                          | None =>
                              if negb (DeepEqual profileValue (Some v)) then false
                              else true
                          end
                      end
                    else true).
  { unfold supersetEntry. fold profileValue.
    destruct (String.eqb_spec key ICloudIdentifiersEntitlementKey);
      [contradiction | reflexivity]. }
  split; [| split; [| split; [| split]]].
  - intros Hequal. apply (Hentry true). rewrite Hbody, Hequal. reflexivity.
  - intros Hv Hp. apply (Hentry true). rewrite Hbody, Hp, Hv. reflexivity.
  - intros Hp. apply (Hentry false). rewrite Hbody, Hp. reflexivity.
  - intros Hv Hp. apply (Hentry false). rewrite Hbody, Hp, Hv. reflexivity.
  - intros Hv Hdiff. apply (Hentry false). rewrite Hbody, Hdiff, Hv. simpl.
    destruct profileValue; reflexivity.
Qed.

(** C6. When the app requires the iCloud container key, both comparison
    modes decide that key by [FindMissingContainers] alone: each accepts
    exactly when that computation succeeds with no missing container and the
    other keys pass, whatever the two values stored under the iCloud key are
    and whether or not they are deep-equal.  So an error from the computation
    or a non-empty missing set fails both modes. *)
Theorem iCloud_key_decided_by_missing_containers profile appEntitlements v
    (Hrequired : appEntitlements !! ICloudIdentifiersEntitlementKey = Some v) :
  let covered :=
    FindMissingContainers appEntitlements (Entitlements profile) = Ok [] in
  (containsAllAppEntitlements profile appEntitlements = true
   <-> covered
       /\ forall key v', key <> ICloudIdentifiersEntitlementKey ->
            appEntitlements !! key = Some v' ->
            DeepEqual (Entitlements profile !! key) (Some v') = true)
  /\ (profileSupportsAppEntitlements profile appEntitlements = true
      <-> covered
          /\ forall key v', key <> ICloudIdentifiersEntitlementKey ->
               appEntitlements !! key = Some v' ->
               supersetEntry appEntitlements (Entitlements profile) (key, v') = true)
  /\ (forall e,
        FindMissingContainers appEntitlements (Entitlements profile) = Err e ->
        containsAllAppEntitlements profile appEntitlements = false
        /\ profileSupportsAppEntitlements profile appEntitlements = false)
  /\ (forall missingContainers,
        FindMissingContainers appEntitlements (Entitlements profile)
        = Ok missingContainers ->
        missingContainers <> [] ->
        containsAllAppEntitlements profile appEntitlements = false
        /\ profileSupportsAppEntitlements profile appEntitlements = false).
Proof.
  intros covered.
  destruct (entry_iCloud appEntitlements (Entitlements profile) v)
    as [Hexact Hsuperset].
  assert (Hexact_iff : containsAllAppEntitlements profile appEntitlements = true
            <-> covered
                /\ forall key v', key <> ICloudIdentifiersEntitlementKey ->
                     appEntitlements !! key = Some v' ->
                     DeepEqual (Entitlements profile !! key) (Some v') = true).
  { rewrite containsAllAppEntitlements_true. unfold covered.
    rewrite <- iCloudContainersCovered_true, <- Hexact. split.
    - intros Hall. split; [apply Hall, Hrequired |].
      intros key v' Hne Hlookup. rewrite <- (exactEntry_other appEntitlements); auto.
    - intros [Hcloud Hothers] key v' Hlookup.
      destruct (decide (key = ICloudIdentifiersEntitlementKey)) as [-> | Hne].
      + rewrite Hrequired in Hlookup. injection Hlookup as <-. exact Hcloud.
      + rewrite exactEntry_other by assumption. auto. }
  assert (Hsuperset_iff : profileSupportsAppEntitlements profile appEntitlements = true
            <-> covered
                /\ forall key v', key <> ICloudIdentifiersEntitlementKey ->
                     appEntitlements !! key = Some v' ->
                     supersetEntry appEntitlements (Entitlements profile) (key, v')
                     = true).
  { rewrite profileSupportsAppEntitlements_true. unfold covered.
    rewrite <- iCloudContainersCovered_true, <- Hsuperset. split.
    - intros Hall. split; [apply Hall, Hrequired |]. auto.
    - intros [Hcloud Hothers] key v' Hlookup.
      destruct (decide (key = ICloudIdentifiersEntitlementKey)) as [-> | Hne].
      + rewrite Hrequired in Hlookup. injection Hlookup as <-. exact Hcloud.
      + auto. }
  assert (Hnot : ~ covered ->
                 containsAllAppEntitlements profile appEntitlements = false
                 /\ profileSupportsAppEntitlements profile appEntitlements = false).
  { intros Hno. split; apply not_true_is_false; intros Haccepts.
    - apply Hexact_iff in Haccepts as [Hc _]. contradiction.
    - apply Hsuperset_iff in Haccepts as [Hs _]. contradiction. }
  split; [exact Hexact_iff |]. split; [exact Hsuperset_iff |]. split.
  - intros e He. apply Hnot. unfold covered. rewrite He. discriminate.
  - intros missing Hm Hne. apply Hnot. unfold covered. rewrite Hm. congruence.
Qed.

(** C7. [provisionsDevices] returns [true] whenever the profile provisions
    all devices or no device is required, whatever its device list; otherwise
    it returns [true] exactly when every required UDID is among the profile's
    provisioned devices, and so [false] when that list is empty. *)
Theorem provisionsDevices_coverage profile (deviceUDIDs : list string) :
  (ProvisionsAllDevices profile = true \/ deviceUDIDs = [] ->
   provisionsDevices profile deviceUDIDs = true)
  /\ (ProvisionsAllDevices profile = false -> deviceUDIDs <> [] ->
      (provisionsDevices profile deviceUDIDs = true
       <-> forall deviceUDID, deviceUDID ∈ deviceUDIDs ->
             deviceUDID ∈ ProvisionedDevices profile)
      /\ (ProvisionedDevices profile = [] ->
          provisionsDevices profile deviceUDIDs = false)).
Proof.
  unfold provisionsDevices. split.
  - intros [-> | ->]; [reflexivity |]. rewrite orb_true_r. reflexivity.
  - intros -> Hsome. destruct deviceUDIDs as [| first rest]; [contradiction |].
    cbn [length Nat.eqb orb]. split.
    + destruct (ProvisionedDevices profile) as [| device devices] eqn:Hdevices.
      * cbn [length Nat.eqb]. split; [discriminate |].
        intros Hall. specialize (Hall first).
        assert (Hin : first ∈ first :: rest) by left.
        apply Hall in Hin. inversion Hin.
      * cbn [length Nat.eqb]. rewrite rangeAccepts_true. split.
        -- intros Hall u Hu. apply contains_elem, Hall, Hu.
        -- intros Hall u Hu. apply contains_elem, Hall, Hu.
    + intros ->. reflexivity.
Qed.

End MatchingEngine.

(** ** Sequences of map assignments *)

Section Assignments.
Context {V : Type}.
Implicit Types (entries : list (string * V)) (m : gmap string V) (key : string).

Lemma lastBinding_app key entries (later : list (string * V)) :
  Spec.lastBinding key (entries ++ later)%list
  = match Spec.lastBinding key later with
    | Some v => Some v
    | None => Spec.lastBinding key entries
    end.
Proof.
  induction entries as [| [k v] rest IH]; simpl.
  - destruct (Spec.lastBinding key later); reflexivity.
  - rewrite IH. destruct (Spec.lastBinding key later); reflexivity.
Qed.

Lemma lastBinding_None key entries :
  Spec.lastBinding key entries = None <-> key ∉ entries.*1.
Proof.
  induction entries as [| [k v] rest IH]; simpl.
  - split; [intros _ Hin; inversion Hin | reflexivity].
  - rewrite not_elem_of_cons, <- IH.
    destruct (Spec.lastBinding key rest).
    + split; [discriminate | intros [_ Hrest]; discriminate].
    + destruct (String.eqb_spec k key) as [-> | Hne].
      * split; [discriminate | intros [Hne _]; contradiction].
      * split; [intros _; split; congruence | reflexivity].
Qed.

Lemma lastBinding_elem key entries (v : V) :
  Spec.lastBinding key entries = Some v -> (key, v) ∈ entries.
Proof.
  induction entries as [| [k w] rest IH]; simpl; [discriminate |].
  destruct (Spec.lastBinding key rest) as [later |].
  - intros [= ->]. right. apply IH. reflexivity.
  - destruct (String.eqb_spec k key) as [-> | Hne]; [| discriminate].
    intros [= ->]. left.
Qed.

(** The last assignment to a key is the one that stays. *)
Lemma lastBinding_last key (v : V) (before after : list (string * V)) :
  key ∉ after.*1 ->
  Spec.lastBinding key (before ++ (key, v) :: after)%list = Some v.
Proof.
  intros Hafter. rewrite lastBinding_app. simpl.
  apply lastBinding_None in Hafter. rewrite Hafter, String.eqb_refl. reflexivity.
Qed.

Lemma lastBinding_is_Some key (v : V) entries :
  (key, v) ∈ entries -> is_Some (Spec.lastBinding key entries).
Proof.
  intros Hin. destruct (Spec.lastBinding key entries) eqn:Hlast; [eauto |].
  apply lastBinding_None in Hlast. exfalso. apply Hlast.
  apply list_elem_of_fmap. exists (key, v). split; [reflexivity | exact Hin].
Qed.

Lemma lastBinding_NoDup key entries :
  NoDup entries.*1 ->
  forall v, Spec.lastBinding key entries = Some v <-> (key, v) ∈ entries.
Proof.
  intros Hnodup v. split; [apply lastBinding_elem |].
  intros Hin. apply list_elem_of_split in Hin as (before & after & ->).
  apply lastBinding_last.
  rewrite fmap_app, fmap_cons in Hnodup. simpl in Hnodup.
  apply NoDup_app in Hnodup as (_ & _ & Hnodup).
  apply NoDup_cons in Hnodup as [Hnotin _]. exact Hnotin.
Qed.

Lemma lookup_fold_assign entries m key :
  fold_left (fun m '(k, v) => <[k := v]> m) entries m !! key
  = match Spec.lastBinding key entries with
    | Some v => Some v
    | None => m !! key
    end.
Proof.
  revert m. induction entries as [| [k v] rest IH]; intros m; simpl; [reflexivity |].
  rewrite IH. destruct (Spec.lastBinding key rest); [reflexivity |].
  destruct (String.eqb_spec k key) as [-> | Hne].
  - apply lookup_insert_eq.
  - apply lookup_insert_ne. exact Hne.
Qed.

Lemma fold_assign_map {A : Type} (keyOf : A -> string) (valueOf : A -> V)
    (items : list A) m :
  fold_left (fun m item => <[keyOf item := valueOf item]> m) items m
  = fold_left (fun m '(k, v) => <[k := v]> m)
      (map (fun item => (keyOf item, valueOf item)) items) m.
Proof.
  revert m. induction items as [| item rest IH]; intros m; simpl; [reflexivity |].
  apply IH.
Qed.

Lemma fold_assign_filter (extract : string -> string * V) (items : list string) m :
  fold_left
    (fun m item =>
       let '(k, v) := extract item in
       if negb (String.eqb k "") then <[k := v]> m else m) items m
  = fold_left (fun m '(k, v) => <[k := v]> m)
      (Spec.qualifyingFrameworks extract items) m.
Proof.
  unfold Spec.qualifyingFrameworks.
  revert m. induction items as [| item rest IH]; intros m; simpl; [reflexivity |].
  rewrite IH. destruct (extract item) as [k v]. simpl.
  destruct (negb (String.eqb k "")); reflexivity.
Qed.

(** Visiting a map in any order and assigning its entries one by one. *)
Lemma lastBinding_rangeOf (order : MapRange) m key :
  Spec.lastBinding key (rangeOf order m) = m !! key.
Proof.
  assert (Hnodup : NoDup (rangeOf order m).*1).
  { rewrite (rangeOf_perm order V m). apply NoDup_fst_map_to_list. }
  destruct (m !! key) as [v |] eqn:Hlookup.
  - apply lastBinding_NoDup; [exact Hnodup |].
    rewrite (rangeOf_perm order V m). apply elem_of_map_to_list. exact Hlookup.
  - destruct (Spec.lastBinding key (rangeOf order m)) as [v |] eqn:Hlast;
      [| reflexivity].
    apply lastBinding_elem in Hlast.
    rewrite (rangeOf_perm order V m) in Hlast.
    apply elem_of_map_to_list in Hlast. congruence.
Qed.
End Assignments.

(** ** The aggregated bundle-ID maps *)

Section ArchiveMaps.
Import XCArchive.
Context `{ArchiveEnv}.
Implicit Types (archive : IosArchive) (key : string).

Lemma getFrameworkBundleIDEntitlements_lookup archive key :
  getFrameworkBundleIDEntitlements archive !! key
  = Spec.lastBinding key
      (Spec.qualifyingFrameworks extractFrameworkInfo (frameworkPaths archive)).
Proof.
  unfold getFrameworkBundleIDEntitlements.
  rewrite fold_assign_filter, lookup_fold_assign, lookup_empty.
  destruct (Spec.lastBinding _ _); reflexivity.
Qed.

Lemma getFrameworkBundleIDProfiles_lookup archive key :
  getFrameworkBundleIDProfiles archive !! key
  = Spec.lastBinding key
      (Spec.qualifyingFrameworks extractFrameworkProfileInfo (frameworkPaths archive)).
Proof.
  unfold getFrameworkBundleIDProfiles.
  rewrite fold_assign_filter, lookup_fold_assign, lookup_empty.
  destruct (Spec.lastBinding _ _); reflexivity.
Qed.

(** One assignment [m[k] = v]: the key read is either the one just assigned
    or one assigned earlier. *)
Ltac assigned_or_earlier :=
  rewrite lookup_insert;
  match goal with
  | |- context [decide (?k = ?key)] =>
      destruct (decide (k = key)) as [-> | ?];
      [rewrite String.eqb_refl; reflexivity
      | replace (String.eqb k key) with false
          by (symmetry; apply String.eqb_neq; assumption)]
  end.

(** A loop of assignments [for _, plugin := range ...]. *)
Ltac through_loop :=
  rewrite fold_assign_map, lookup_fold_assign;
  match goal with
  | |- context [Spec.lastBinding ?key (map ?f ?l)] =>
      destruct (Spec.lastBinding key (map f l)); [reflexivity |]
  end.

(** The assignments both map builders make for the application tree: the
    primary application, its extensions, the watch application and its
    extensions, the clip application, in this order. *)
Lemma tree_assignments_lookup {V : Type} (field : IosBaseApplication -> V)
    archive key :
  (let m : gmap string V := ∅ in
   let m :=
     <[BundleIdentifier (AppBase (Application archive))
       := field (AppBase (Application archive))]> m in
   let m :=
     fold_left
       (fun m plugin =>
          <[BundleIdentifier (ExtensionBase plugin) := field (ExtensionBase plugin)]> m)
       (Extensions (Application archive)) m in
   let m :=
     match WatchApplication (Application archive) with
     | Some watchApplication =>
         fold_left
           (fun m plugin =>
              <[BundleIdentifier (ExtensionBase plugin)
                := field (ExtensionBase plugin)]> m)
           (WatchExtensions watchApplication)
           (<[BundleIdentifier (WatchBase watchApplication)
              := field (WatchBase watchApplication)]> m)
     | None => m
     end in
   match ClipApplication (Application archive) with
   | Some clipApplication =>
       <[BundleIdentifier (ClipBase clipApplication)
         := field (ClipBase clipApplication)]> m
   | None => m
   end) !! key
  = Spec.lastBinding key (Spec.treeIdentities field archive).
Proof.
  unfold Spec.treeIdentities.
  destruct (Application archive) as [base watch clip extensions]. cbn zeta. simpl.
  rewrite !lastBinding_app.
  destruct clip as [clip |]; simpl; [assigned_or_earlier |];
    (destruct watch as [watch |]; simpl;
     [through_loop; assigned_or_earlier |]);
    through_loop; rewrite lookup_insert, lookup_empty;
    destruct (decide (BundleIdentifier base = key)) as [-> | Hne];
    solve [ rewrite String.eqb_refl; reflexivity
          | apply String.eqb_neq in Hne; rewrite Hne; reflexivity ].
Qed.

Lemma BundleIDEntitlementsMap_lookup archive key :
  BundleIDEntitlementsMap archive !! key
  = Spec.lastBinding key (Spec.entitlementIdentities archive).
Proof.
  unfold BundleIDEntitlementsMap, Spec.entitlementIdentities. cbn zeta.
  rewrite lookup_fold_assign, lastBinding_rangeOf,
    getFrameworkBundleIDEntitlements_lookup, lastBinding_app.
  destruct (Spec.lastBinding key (Spec.qualifyingFrameworks _ _)); [reflexivity |].
  apply (tree_assignments_lookup Entitlements).
Qed.

Lemma BundleIDProfileInfoMap_lookup archive key :
  BundleIDProfileInfoMap archive !! key
  = Spec.lastBinding key (Spec.profileIdentities archive).
Proof.
  unfold BundleIDProfileInfoMap, Spec.profileIdentities. cbn zeta.
  rewrite lookup_fold_assign, lastBinding_rangeOf,
    getFrameworkBundleIDProfiles_lookup, lastBinding_app.
  destruct (Spec.lastBinding key (Spec.qualifyingFrameworks _ _)); [reflexivity |].
  apply (tree_assignments_lookup ProvisioningProfile).
Qed.

Lemma primary_application_in_profile_map archive :
  is_Some (BundleIDProfileInfoMap archive
             !! BundleIdentifier (AppBase (Application archive))).
Proof.
  rewrite BundleIDProfileInfoMap_lookup.
  apply (lastBinding_is_Some _ (ProvisioningProfile (AppBase (Application archive)))).
  unfold Spec.profileIdentities, Spec.treeIdentities. simpl. left.
Qed.

(** [TeamID] on any archive value: the map it ranges over is not empty, so the
    loop body runs and returns the team of the entry visited first. *)
Lemma TeamID_of_some_entry archive :
  exists key profileInfo,
    BundleIDProfileInfoMap archive !! key = Some profileInfo
    /\ TeamID archive = Ok (ProfileUtil.TeamID profileInfo).
Proof.
  unfold TeamID. cbn zeta.
  pose proof (rangeOf_perm archiveMapRange _ (BundleIDProfileInfoMap archive))
    as Hperm.
  destruct (rangeOf archiveMapRange (BundleIDProfileInfoMap archive))
    as [| [key profileInfo] rest].
  - symmetry in Hperm. apply Permutation_nil_r in Hperm.
    apply map_to_list_empty_iff in Hperm.
    destruct (primary_application_in_profile_map archive) as [p Hp].
    rewrite Hperm, lookup_empty in Hp. discriminate.
  - exists key, profileInfo. split; [| reflexivity].
    apply elem_of_map_to_list. rewrite <- Hperm. left.
Qed.

(** A framework qualifies for the profile map when it qualifies for the
    entitlements map and its embedded profile can be read as well. *)
Lemma extractFrameworkProfileInfo_readable (frameworkPath : string) :
  extractFrameworkProfileInfo frameworkPath
  = match NewProvisioningProfileInfoFromFile
            (Join [frameworkPath; "embedded.mobileprovision"]) with
    | Ok profile =>
        if negb (String.eqb (fst (extractFrameworkInfo frameworkPath)) "")
        then (fst (extractFrameworkInfo frameworkPath), profile)
        else ("", emptyProfile)
    | Err _ => ("", emptyProfile)
    end.
Proof.
  unfold extractFrameworkProfileInfo, extractFrameworkInfo. cbn zeta.
  destruct (IsPathExists (Join [frameworkPath; "embedded.mobileprovision"]))
    as [[|] | e1];
    destruct (IsPathExists (Join [frameworkPath; "Info.plist"])) as [[|] | e2];
    destruct (NewPlistDataFromFile (Join [frameworkPath; "Info.plist"]))
      as [infoPlist | e3];
    destruct (NewProvisioningProfileInfoFromFile
                (Join [frameworkPath; "embedded.mobileprovision"]))
      as [profile | e4];
    simpl; try reflexivity;
    destruct (GetString infoPlist "CFBundleIdentifier") as [bundleID [|]]; simpl;
    try reflexivity;
    destruct (String.eqb bundleID "") eqn:Hempty; simpl; try reflexivity;
    destruct (getEntitlements _ _); simpl; rewrite Hempty; reflexivity.
Qed.


(** C10. For an archive built by [NewIosArchive], [TeamID] never returns the
    "team id not found" error: the profile map always holds the primary
    application's entry, so the loop over it runs, and the result is the team
    identifier of an entry of the map. *)
Theorem TeamID_never_not_found path archive
    (Hbuilt : NewIosArchive path = Ok archive) :
  is_Some (BundleIDProfileInfoMap archive
             !! BundleIdentifier (AppBase (Application archive)))
  /\ TeamID archive <> Err "team id not found"
  /\ exists key profileInfo,
       BundleIDProfileInfoMap archive !! key = Some profileInfo
       /\ TeamID archive = Ok (ProfileUtil.TeamID profileInfo).
Proof.
  split; [apply primary_application_in_profile_map |].
  destruct (TeamID_of_some_entry archive) as (key & profileInfo & Hentry & Hteam).
  split; [rewrite Hteam; discriminate |].
  exists key, profileInfo. split; assumption.
Qed.

End ArchiveMaps.

(** ** Archive decomposition: what aborts and what does not *)

Section Decomposition.
Import XCArchive.
Context `{ArchiveEnv}.

Lemma bind_Ok {A B : Type} (a : A) (k : A -> result B) : (Ok a ≫= k) = k a.
Proof. reflexivity. Qed.

Lemma bind_Err {A B : Type} (e : string) (k : A -> result B) :
  (Err e ≫= k) = Err e.
Proof. reflexivity. Qed.



(** A loop that finishes has built every extension the search listed, in the
    order listed. *)
Lemma appendExtensions_Ok (extensions : list IosExtension) (pths : list string)
    (result : list IosExtension) :
  appendExtensions extensions pths = Ok result ->
  exists built,
    result = (extensions ++ built)%list
    /\ Forall2 (fun pth extension => NewIosExtension pth = Ok extension) pths built.
Proof.
  revert extensions. induction pths as [| pth rest IH]; intros extensions; simpl.
  - intros [= <-]. exists []. split; [symmetry; apply app_nil_r | constructor].
  - destruct (NewIosExtension pth) as [extension | e] eqn:Hfirst;
      [rewrite bind_Ok | rewrite bind_Err; discriminate].
    intros Hrest. apply IH in Hrest as (built & -> & Hall).
    exists (extension :: built). split.
    + rewrite <- app_assoc. reflexivity.
    + constructor; assumption.
Qed.












End Decomposition.

(** ** The definitions run on the sample data *)

Section Runs.
Import LocalCodesignAsset XCArchive Samples.

(** A manually managed profile carrying the app's entitlements, valid for 30
    more days, against a request for 7 days and no device: pass 1 returns it. *)
Example run_exact_pass :
  @findProfile sampleEnv [acmeProfile "Acme" pushEntitlements]
    (acmeRequest pushEntitlements)
  = Some (acmeProfile "Acme" pushEntitlements).
Proof. vm_compute. reflexivity. Qed.

(** A required [true] against a profile's [false] fails both modes and both
    passes; a required [false] against a profile's [true] fails the exact
    mode only. *)
Example run_boolean_entitlement :
  @findProfile sampleEnv [acmeProfile "Acme" (domainsEntitlements false)]
    (acmeRequest (domainsEntitlements true)) = None
  /\ @containsAllAppEntitlements sampleEnv
       (acmeProfile "Acme" (domainsEntitlements true)) (domainsEntitlements false)
     = false
  /\ @findProfile sampleEnv [acmeProfile "Acme" (domainsEntitlements true)]
       (acmeRequest (domainsEntitlements false))
     = Some (acmeProfile "Acme" (domainsEntitlements true)).
Proof. vm_compute. repeat split; reflexivity. Qed.

(** Containers A and B required: a profile granting A, B and C passes both
    modes, a profile granting A alone fails both. *)
Example run_iCloud_containers :
  @containsAllAppEntitlements sampleEnv
    (acmeProfile "Acme" (containerEntitlements ["A"; "B"; "C"]))
    (containerEntitlements ["A"; "B"]) = true
  /\ @profileSupportsAppEntitlements sampleEnv
       (acmeProfile "Acme" (containerEntitlements ["A"; "B"; "C"]))
       (containerEntitlements ["A"; "B"]) = true
  /\ @containsAllAppEntitlements sampleEnv
       (acmeProfile "Acme" (containerEntitlements ["A"]))
       (containerEntitlements ["A"; "B"]) = false
  /\ @profileSupportsAppEntitlements sampleEnv
       (acmeProfile "Acme" (containerEntitlements ["A"]))
       (containerEntitlements ["A"; "B"]) = false.
Proof. vm_compute. repeat split; reflexivity. Qed.

Example run_provisionsDevices :
  provisionsDevices (acmeProfile "Acme" ∅) ["udid-2"; "udid-1"] = true
  /\ provisionsDevices (acmeProfile "Acme" ∅) ["udid-1"; "udid-9"] = false
  /\ provisionsDevices (acmeProfile "Acme" ∅) [] = true.
Proof. vm_compute. repeat split; reflexivity. Qed.

Example run_NewIosArchive :
  @NewIosArchive sampleFS archiveRoot = Ok sampleArchive.
Proof. vm_compute. reflexivity. Qed.

Example run_missing_application :
  @NewIosApplication sampleFS "/build/Missing.app"
  = Err "Info.plist not exists at: /build/Missing.app/Info.plist".
Proof. vm_compute. reflexivity. Qed.

(** [Lib.framework] has a profile and no readable entitlements: it is kept
    with empty entitlements; [Plain.framework] has no profile and is left out;
    [Broken.framework] is kept by the entitlements map alone. *)
Example run_frameworks :
  @extractFrameworkInfo sampleFS libDir = ("com.acme.lib", ∅)
  /\ fst (@extractFrameworkInfo sampleFS plainDir) = ""
  /\ @BundleIDEntitlementsMap sampleFS sampleArchive
     = {[ "com.acme.app" := pushEntitlements; "com.acme.lib" := ∅;
          "com.acme.broken" := ∅ ]}
  /\ @BundleIDProfileInfoMap sampleFS sampleArchive
     = {[ "com.acme.app" := acmeProfile "Acme" pushEntitlements;
          "com.acme.lib" := libProfile ]}.
Proof. vm_compute. repeat split; reflexivity. Qed.

(** An extension with the application's bundle ID takes over the
    application's entry in both maps. *)
Example run_clashing_bundle_ids :
  @BundleIDEntitlementsMap sampleFS clashingArchive !! "com.acme.app" = Some ∅
  /\ @BundleIDProfileInfoMap sampleFS clashingArchive !! "com.acme.app"
     = Some libProfile.
Proof. vm_compute. repeat split; reflexivity. Qed.

Lemma managed_profile_only_in_second_pass_witness :
  @isProfileMatching sampleEnv (acmeProfile "XC Acme" pushEntitlements)
    (acmeRequest pushEntitlements) = false
  /\ @findProfile sampleEnv [acmeProfile "XC Acme" pushEntitlements]
       (acmeRequest pushEntitlements)
     = Some (acmeProfile "XC Acme" pushEntitlements).
Proof.
  assert (Hmanaged : @IsXcodeManaged sampleEnv (acmeProfile "XC Acme" pushEntitlements)
                     = true) by (vm_compute; reflexivity).
  destruct (@managed_profile_only_in_second_pass sampleEnv
              (acmeProfile "XC Acme" pushEntitlements)
              (acmeRequest pushEntitlements) Hmanaged)
    as (Hexact & _ & _ & Hsecond).
  split; [exact Hexact |].
  assert (Hfilters :
            @Spec.sharedFilters sampleEnv
              (@profileSupportsAppEntitlements sampleEnv
                 (acmeProfile "XC Acme" pushEntitlements)
                 (entitlements (acmeRequest pushEntitlements)))
              (acmeProfile "XC Acme" pushEntitlements)
              (acmeRequest pushEntitlements) = true) by (vm_compute; reflexivity).
  destruct (Hsecond Hfilters) as [_ Hfound].
  apply (Hfound [] []).
  - intros p Hin. inversion Hin.
  - intros p Hin. apply list_elem_of_singleton in Hin. subst p. exact Hexact.
Defined.

Lemma superset_mode_per_key_witness :
  @profileSupportsAppEntitlements sampleEnv
    (acmeProfile "Acme" (domainsEntitlements false)) (domainsEntitlements true)
  = false.
Proof.
  assert (Hrequired : domainsEntitlements true
                        !! "com.apple.developer.associated-domains"
                      = Some (VBool true)) by (vm_compute; reflexivity).
  assert (Hother : "com.apple.developer.associated-domains"
                   <> @ICloudIdentifiersEntitlementKey sampleEnv)
    by (apply String.eqb_neq; vm_compute; reflexivity).
  destruct (@superset_mode_per_key sampleEnv
              (acmeProfile "Acme" (domainsEntitlements false))
              (domainsEntitlements true)
              "com.apple.developer.associated-domains" (VBool true)
              Hrequired Hother)
    as (_ & _ & _ & Hfails & _).
  apply Hfails; [reflexivity | vm_compute; reflexivity].
Defined.

Lemma iCloud_key_decided_by_missing_containers_witness :
  @containsAllAppEntitlements sampleEnv
    (acmeProfile "Acme" (containerEntitlements ["A"]))
    (containerEntitlements ["A"; "B"]) = false
  /\ @profileSupportsAppEntitlements sampleEnv
       (acmeProfile "Acme" (containerEntitlements ["A"]))
       (containerEntitlements ["A"; "B"]) = false.
Proof.
  assert (Hrequired : containerEntitlements ["A"; "B"]
                        !! @ICloudIdentifiersEntitlementKey sampleEnv
                      = Some (VArray [VString "A"; VString "B"]))
    by (vm_compute; reflexivity).
  destruct (@iCloud_key_decided_by_missing_containers sampleEnv
              (acmeProfile "Acme" (containerEntitlements ["A"]))
              (containerEntitlements ["A"; "B"]) _ Hrequired)
    as (_ & _ & _ & Hmissing).
  apply (Hmissing ["B"]); [vm_compute; reflexivity | discriminate].
Defined.

Lemma TeamID_never_not_found_witness :
  exists key profileInfo,
    @BundleIDProfileInfoMap sampleFS sampleArchive !! key = Some profileInfo
    /\ @TeamID sampleFS sampleArchive = Ok (ProfileUtil.TeamID profileInfo).
Proof.
  assert (Hbuilt : @NewIosArchive sampleFS archiveRoot = Ok sampleArchive)
    by (vm_compute; reflexivity).
  destruct (@TeamID_never_not_found sampleFS archiveRoot sampleArchive Hbuilt)
    as (_ & _ & Hteam).
  exact Hteam.
Defined.


End Runs.

(** * Further properties of the matching engine *)

Section EngineCoverage.
Import LocalCodesignAsset.
Context `{MatchEnv}.

Implicit Types (profile : ProvisioningProfileInfoModel) (r : MatchRequest).
Implicit Types (localProfiles : list ProvisioningProfileInfoModel).
Implicit Types (appEntitlements : PlistData).

Lemma hasMatchingLocalCertificates_true profile (serials : list string) :
  hasMatchingLocalCertificates profile serials = true
  <-> forall serial, serial ∈ serials ->
        serial ∈ map Serial (DeveloperCertificates profile).
Proof.
  unfold hasMatchingLocalCertificates. cbn zeta. rewrite rangeAccepts_true.
  split; intros Hall serial Hin; apply IsStringInSlice_elem, Hall, Hin.
Qed.

(** Certificate coverage.  [hasMatchingLocalCertificates] holds exactly when
    every required serial is the serial of one of the profile's certificates;
    order and repetition in either list do not matter, so it survives dropping
    required serials and adding certificates to the profile. *)
Theorem certificate_coverage_is_inclusion profile profile'
    (serials serials' : list string) :
  (hasMatchingLocalCertificates profile serials = true
   <-> forall serial, serial ∈ serials ->
         exists certificate,
           certificate ∈ DeveloperCertificates profile
           /\ Serial certificate = serial)
  /\ (hasMatchingLocalCertificates profile serials = true ->
      (forall serial, serial ∈ serials' -> serial ∈ serials) ->
      (forall certificate, certificate ∈ DeveloperCertificates profile ->
                           certificate ∈ DeveloperCertificates profile') ->
      hasMatchingLocalCertificates profile' serials' = true).
Proof.
  assert (Hcert : forall p serial,
             serial ∈ map Serial (DeveloperCertificates p)
             <-> exists certificate,
                   certificate ∈ DeveloperCertificates p
                   /\ Serial certificate = serial).
  { intros p serial. rewrite list_elem_of_In, in_map_iff. split.
    - intros (c & Hc & Hin). exists c. split; [apply list_elem_of_In |]; assumption.
    - intros (c & Hin & Hc). exists c. split; [| apply list_elem_of_In]; assumption. }
  split.
  - rewrite hasMatchingLocalCertificates_true. split.
    + intros Hall serial Hin. apply Hcert, Hall, Hin.
    + intros Hall serial Hin. apply Hcert, Hall, Hin.
  - rewrite !hasMatchingLocalCertificates_true.
    intros Hall Hfewer Hmore serial Hin.
    apply Hcert. apply Hfewer, Hall, Hcert in Hin as (c & Hc & Hserial).
    exists c. split; [apply Hmore, Hc | exact Hserial].
Qed.

(** Exact mode without the iCloud key is map inclusion: the profile is
    accepted exactly when each required entitlement is an entry of the
    profile's entitlements with an equal value. *)
Theorem exact_mode_is_inclusion profile appEntitlements
    (Hplain : appEntitlements !! ICloudIdentifiersEntitlementKey = None) :
  containsAllAppEntitlements profile appEntitlements = true
  <-> appEntitlements ⊆ Entitlements profile.
Proof.
  rewrite containsAllAppEntitlements_true, map_subseteq_spec.
  split; intros Hall key v Hlookup.
  - specialize (Hall key v Hlookup).
    rewrite exactEntry_other in Hall by congruence.
    apply DeepEqual_spec in Hall. exact Hall.
  - rewrite exactEntry_other by congruence.
    apply DeepEqual_spec. apply Hall, Hlookup.
Qed.

Lemma supersetEntry_other appEntitlements appEntitlements'
    (profileEntitlements profileEntitlements' : PlistData) key v :
  key <> ICloudIdentifiersEntitlementKey ->
  profileEntitlements !! key = profileEntitlements' !! key ->
  supersetEntry appEntitlements profileEntitlements (key, v)
  = supersetEntry appEntitlements' profileEntitlements' (key, v).
Proof.
  intros Hne Hsame. unfold supersetEntry.
  destruct (String.eqb_spec key ICloudIdentifiersEntitlementKey); [contradiction |].
  rewrite Hsame. reflexivity.
Qed.

(** Keys of the profile the app does not require are never mismatches: when
    the app does not require the iCloud key, two profiles whose entitlements
    agree on the keys the app requires get the same answer in both modes. *)
Theorem unrequired_profile_keys_ignored profile profile' appEntitlements
    (Hplain : appEntitlements !! ICloudIdentifiersEntitlementKey = None)
    (Hagree : forall key, is_Some (appEntitlements !! key) ->
                Entitlements profile !! key = Entitlements profile' !! key) :
  containsAllAppEntitlements profile appEntitlements
  = containsAllAppEntitlements profile' appEntitlements
  /\ profileSupportsAppEntitlements profile appEntitlements
     = profileSupportsAppEntitlements profile' appEntitlements.
Proof.
  split; apply eq_true_iff_eq.
  - rewrite !containsAllAppEntitlements_true.
    split; intros Hall key v Hlookup; specialize (Hall key v Hlookup);
      rewrite exactEntry_other in * by congruence.
    + rewrite <- Hagree by eauto. exact Hall.
    + rewrite Hagree by eauto. exact Hall.
  - rewrite !profileSupportsAppEntitlements_true.
    split; intros Hall key v Hlookup; specialize (Hall key v Hlookup).
    + rewrite <- Hall. symmetry. apply supersetEntry_other; [congruence |].
      apply Hagree. eauto.
    + rewrite <- Hall. apply supersetEntry_other; [congruence |].
      apply Hagree. eauto.
Qed.

(** A request that requires no entitlement, no certificate and no device
    leaves four filters and the tool-managed exclusion: validity, distribution
    type, bundle ID and platform. *)
Theorem empty_requirements_are_vacuous profile r
    (Hentitlements : entitlements r = ∅)
    (Hcertificates : certSerials r = [])
    (Hdevices : deviceUDIDs r = []) :
  isProfileMatching profile r
  = isActive profile (minProfileDaysValid r)
    && hasMatchingDistributionType profile (distributionType r)
    && hasMatchingBundleID profile (bundleID r)
    && hasMatchingPlatform profile (platform r)
    && negb (IsXcodeManaged profile)
  /\ isProfileMatchingWithSuperset profile r
     = isActive profile (minProfileDaysValid r)
       && hasMatchingDistributionType profile (distributionType r)
       && hasMatchingBundleID profile (bundleID r)
       && hasMatchingPlatform profile (platform r).
Proof.
  assert (Hexact : containsAllAppEntitlements profile ∅ = true).
  { apply containsAllAppEntitlements_true. intros key v Hlookup.
    rewrite lookup_empty in Hlookup. discriminate. }
  assert (Hsuperset : profileSupportsAppEntitlements profile ∅ = true).
  { apply profileSupportsAppEntitlements_true. intros key v Hlookup.
    rewrite lookup_empty in Hlookup. discriminate. }
  rewrite isProfileMatching_filters, isProfileMatchingWithSuperset_filters.
  unfold Spec.sharedFilters.
  rewrite Hentitlements, Hcertificates, Hdevices, Hexact, Hsuperset.
  unfold hasMatchingLocalCertificates, provisionsDevices. simpl.
  rewrite orb_true_r, !andb_true_r. split; reflexivity.
Qed.

(** A required boolean against a profile value that is not a boolean: the
    superset mode lets the key pass whatever the required boolean is, while
    the exact mode rejects it. *)
Theorem boolean_against_other_type_passes_superset profile key (required : bool)
    (profileValue : value)
    (Hother : key <> ICloudIdentifiersEntitlementKey)
    (Hdefined : Entitlements profile !! key = Some profileValue)
    (Hnotbool : asBool (Some profileValue) = None) :
  profileSupportsAppEntitlements profile {[ key := VBool required ]} = true
  /\ containsAllAppEntitlements profile {[ key := VBool required ]} = false.
Proof.
  assert (Hdiffer : DeepEqual (Some profileValue) (Some (VBool required)) = false).
  { destruct profileValue; simpl in *; congruence. }
  split.
  - apply profileSupportsAppEntitlements_true. intros key' v Hlookup.
    apply lookup_singleton_Some in Hlookup as [<- <-].
    unfold supersetEntry.
    destruct (String.eqb_spec key ICloudIdentifiersEntitlementKey); [contradiction |].
    rewrite Hdefined, Hdiffer.
    destruct profileValue; simpl in *; solve [reflexivity | discriminate].
  - apply (containsAllAppEntitlements_rejects _ _ key (VBool required)).
    + apply lookup_singleton_eq.
    + rewrite exactEntry_other by exact Hother. rewrite Hdefined. exact Hdiffer.
Qed.

Lemma isProfileMatching_superset profile r :
  isProfileMatching profile r = true ->
  isProfileMatchingWithSuperset profile r = true.
Proof.
  rewrite isProfileMatching_filters, isProfileMatchingWithSuperset_filters.
  unfold Spec.sharedFilters. rewrite !andb_true_iff.
  intros [[[[[[[Ha Hd] Hb] Hp] Hc] He] Hdev] _].
  repeat split; try assumption.
  apply profileSupportsAppEntitlements_true. intros key v Hlookup.
  apply exactEntry_supersetEntry.
  rewrite containsAllAppEntitlements_true in He. apply He, Hlookup.
Qed.

Lemma findProfile_Some_cases localProfiles r profile :
  findProfile localProfiles r = Some profile ->
  firstAccepted (fun p => isProfileMatching p r) localProfiles = Some profile
  \/ (firstAccepted (fun p => isProfileMatching p r) localProfiles = None
      /\ firstAccepted (fun p => isProfileMatchingWithSuperset p r) localProfiles
         = Some profile).
Proof.
  unfold findProfile.
  destruct (firstAccepted (fun p => isProfileMatching p r) localProfiles)
    as [exact |]; [intros [= ->]; left; reflexivity |].
  destruct (firstAccepted (fun p => isProfileMatchingWithSuperset p r)
              localProfiles) as [superset |]; [| discriminate].
  intros [= ->]. right. split; reflexivity.
Qed.

Lemma findProfile_sound localProfiles r profile :
  findProfile localProfiles r = Some profile ->
  profile ∈ localProfiles /\ isProfileMatchingWithSuperset profile r = true.
Proof.
  intros Hfound.
  apply findProfile_Some_cases in Hfound as [Hexact | [_ Hsuperset]].
  - apply firstAccepted_accepts in Hexact as [Hok Hin].
    split; [exact Hin | apply isProfileMatching_superset, Hok].
  - apply firstAccepted_accepts in Hsuperset as [Hok Hin]. split; assumption.
Qed.

(** [findProfile] finds a profile exactly when some profile of the list
    passes the superset predicate: it returns no match only when every
    profile fails pass 2, and what it returns is a profile of the list that
    passes pass 2. *)
Theorem findProfile_complete_for_superset localProfiles r :
  (findProfile localProfiles r = None
   <-> forall profile, profile ∈ localProfiles ->
         isProfileMatchingWithSuperset profile r = false)
  /\ (forall profile,
        findProfile localProfiles r = Some profile ->
        profile ∈ localProfiles /\ isProfileMatchingWithSuperset profile r = true).
Proof.
  split; [| intros profile; apply findProfile_sound].
  split.
  - intros Hnone profile Hin.
    unfold findProfile in Hnone.
    destruct (firstAccepted (fun p => isProfileMatching p r) localProfiles);
      [discriminate |].
    destruct (firstAccepted (fun p => isProfileMatchingWithSuperset p r)
                localProfiles) eqn:Hsuperset; [discriminate |].
    rewrite firstAccepted_None in Hsuperset. apply Hsuperset, Hin.
  - intros Hall.
    destruct (findProfile localProfiles r) as [profile |] eqn:Hfound;
      [| reflexivity].
    apply findProfile_sound in Hfound as [Hin Hok].
    rewrite (Hall profile Hin) in Hok. discriminate.
Qed.

(** What a returned profile guarantees: it is one of the local profiles, its
    bundle ID and export type are the requested ones, its type is the
    lower-cased platform, it expires after the validity window, it carries
    every required certificate serial and covers every required device. *)
Theorem findProfile_result_meets_request localProfiles r profile
    (Hfound : findProfile localProfiles r = Some profile) :
  profile ∈ localProfiles
  /\ BundleID profile = bundleID r
  /\ ExportType profile = distributionType r
  /\ Type_ profile = ToLower (platform r)
  /\ (if 0 <? minProfileDaysValid r
      then AddDate now 0 0 (minProfileDaysValid r) else now)
     < ExpirationDate profile
  /\ (forall serial, serial ∈ certSerials r ->
        serial ∈ map Serial (DeveloperCertificates profile))
  /\ (ProvisionsAllDevices profile = true
      \/ forall deviceUDID, deviceUDID ∈ deviceUDIDs r ->
           deviceUDID ∈ ProvisionedDevices profile).
Proof.
  apply findProfile_sound in Hfound as [Hin Hok].
  rewrite isProfileMatchingWithSuperset_filters in Hok.
  unfold Spec.sharedFilters in Hok. rewrite !andb_true_iff in Hok.
  destruct Hok as [[[[[[Ha Hd] Hb] Hp] Hc] _] Hdev].
  split; [exact Hin |].
  split; [apply String.eqb_eq, Hb |].
  split; [apply String.eqb_eq, Hd |].
  split; [symmetry; apply String.eqb_eq, Hp |].
  split; [unfold isActive in Ha; cbn zeta in Ha; apply Z.ltb_lt, Ha |].
  split; [apply hasMatchingLocalCertificates_true, Hc |].
  unfold provisionsDevices in Hdev.
  destruct (ProvisionsAllDevices profile); [left; reflexivity | right].
  destruct (deviceUDIDs r) as [| first rest]; [intros u Hu; inversion Hu |].
  simpl in Hdev.
  destruct (ProvisionedDevices profile) as [| device devices] eqn:Hdevices;
    [discriminate |].
  simpl in Hdev. intros u Hu. apply contains_elem.
  change (rangeAccepts (fun deviceUDID => contains (device :: devices) deviceUDID)
            (first :: rest) = true) in Hdev.
  rewrite rangeAccepts_true in Hdev. apply Hdev, Hu.
Qed.

(** Pass 1 has priority over position: as soon as one profile of the list
    passes the exact predicate, the result passes the exact predicate and is
    not tool-managed, even when a profile that passes only pass 2 comes
    earlier in the list. *)
Theorem exact_match_beats_earlier_superset_match localProfiles r candidate
    (Hin : candidate ∈ localProfiles)
    (Hexact : isProfileMatching candidate r = true) :
  exists profile,
    findProfile localProfiles r = Some profile
    /\ isProfileMatching profile r = true
    /\ IsXcodeManaged profile = false.
Proof.
  unfold findProfile.
  destruct (firstAccepted (fun p => isProfileMatching p r) localProfiles)
    as [exact |] eqn:Hfirst.
  - exists exact. split; [reflexivity |].
    apply firstAccepted_accepts in Hfirst as [Hok _]. split; [exact Hok |].
    rewrite isProfileMatching_filters, andb_true_iff in Hok.
    destruct Hok as [_ Hmanual]. apply negb_true_iff, Hmanual.
  - rewrite firstAccepted_None in Hfirst.
    rewrite (Hfirst candidate Hin) in Hexact. discriminate.
Qed.

(** Device coverage only depends on which UDIDs are required and which are
    provisioned: it survives dropping, repeating and reordering required
    devices. *)
Theorem provisionsDevices_fewer_devices profile (deviceUDIDs fewer : list string)
    (Hcovered : provisionsDevices profile deviceUDIDs = true)
    (Hfewer : forall deviceUDID, deviceUDID ∈ fewer -> deviceUDID ∈ deviceUDIDs) :
  provisionsDevices profile fewer = true.
Proof.
  unfold provisionsDevices in *.
  destruct (ProvisionsAllDevices profile); [reflexivity |].
  destruct fewer as [| first rest]; [reflexivity |].
  destruct deviceUDIDs as [| required others].
  { specialize (Hfewer first). assert (Hfirst : first ∈ first :: rest) by left.
    apply Hfewer in Hfirst. inversion Hfirst. }
  cbn [length Nat.eqb orb] in *.
  destruct (ProvisionedDevices profile) as [| device devices]; [discriminate |].
  cbn [length Nat.eqb] in *.
  rewrite rangeAccepts_true in *.
  intros u Hu. apply Hcovered, Hfewer, Hu.
Qed.

End EngineCoverage.

Section IterationOrder.
Import LocalCodesignAsset.

Lemma firstAccepted_ext (accepts accepts' : ProvisioningProfileInfoModel -> bool)
    (localProfiles : list ProvisioningProfileInfoModel) :
  (forall profile, accepts profile = accepts' profile) ->
  firstAccepted accepts localProfiles = firstAccepted accepts' localProfiles.
Proof.
  intros Hsame. induction localProfiles as [| profile rest IH]; simpl;
    [reflexivity |].
  rewrite Hsame, IH. reflexivity.
Qed.

Lemma entitlement_modes_any_order (env : MatchEnv) (order order' : MapRange)
    (profile : ProvisioningProfileInfoModel) (appEntitlements : PlistData) :
  @containsAllAppEntitlements (withRange env order) profile appEntitlements
  = @containsAllAppEntitlements (withRange env order') profile appEntitlements
  /\ @profileSupportsAppEntitlements (withRange env order) profile appEntitlements
     = @profileSupportsAppEntitlements (withRange env order') profile appEntitlements.
Proof.
  split; apply eq_true_iff_eq.
  - rewrite !containsAllAppEntitlements_true. reflexivity.
  - rewrite !profileSupportsAppEntitlements_true. reflexivity.
Qed.

(** The order in which Go visits the entitlement map has no influence: under
    any two iteration orders both comparison modes, both predicates and
    [findProfile] give the same result. *)
Theorem matching_independent_of_map_order (env : MatchEnv)
    (order order' : MapRange)
    (localProfiles : list ProvisioningProfileInfoModel) (r : MatchRequest) :
  (forall profile appEntitlements,
     @containsAllAppEntitlements (withRange env order) profile appEntitlements
     = @containsAllAppEntitlements (withRange env order') profile appEntitlements
     /\ @profileSupportsAppEntitlements (withRange env order) profile
          appEntitlements
        = @profileSupportsAppEntitlements (withRange env order') profile
            appEntitlements)
  /\ (forall profile,
        @isProfileMatching (withRange env order) profile r
        = @isProfileMatching (withRange env order') profile r
        /\ @isProfileMatchingWithSuperset (withRange env order) profile r
           = @isProfileMatchingWithSuperset (withRange env order') profile r)
  /\ @findProfile (withRange env order) localProfiles r
     = @findProfile (withRange env order') localProfiles r.
Proof.
  assert (Hpredicates : forall profile,
             @isProfileMatching (withRange env order) profile r
             = @isProfileMatching (withRange env order') profile r
             /\ @isProfileMatchingWithSuperset (withRange env order) profile r
                = @isProfileMatchingWithSuperset (withRange env order') profile r).
  { intros profile.
    destruct (entitlement_modes_any_order env order order' profile (entitlements r))
      as [Hexact Hsuperset].
    rewrite !isProfileMatching_filters, !isProfileMatchingWithSuperset_filters.
    unfold Spec.sharedFilters. rewrite Hexact, Hsuperset. split; reflexivity. }
  split; [intros profile appEntitlements; apply entitlement_modes_any_order |].
  split; [exact Hpredicates |].
  unfold findProfile.
  rewrite (firstAccepted_ext _ (fun p => @isProfileMatching (withRange env order') p r))
    by (intros p; apply Hpredicates).
  rewrite (firstAccepted_ext (fun p => @isProfileMatchingWithSuperset
                                         (withRange env order) p r)
             (fun p => @isProfileMatchingWithSuperset (withRange env order') p r))
    by (intros p; apply Hpredicates).
  reflexivity.
Qed.

End IterationOrder.

(** * Further properties of the archive model *)

Section ArchiveCoverage.
Import XCArchive.
Context `{ArchiveEnv}.
Implicit Types (archive : IosArchive) (key path : string).

Lemma bind_Ok_inv {A B : Type} (r : result A) (k : A -> result B) (b : B) :
  (r ≫= k) = Ok b -> exists a, r = Ok a /\ k a = Ok b.
Proof.
  destruct r as [a | e]; [| discriminate].
  intros Hk. exists a. split; [reflexivity | exact Hk].
Qed.

Lemma NewIosBaseApplication_built_path path (app : IosBaseApplication) :
  NewIosBaseApplication path = Ok app -> Path app = path.
Proof.
  unfold NewIosBaseApplication. cbn zeta. intros Hbuilt.
  apply bind_Ok_inv in Hbuilt as (infoPlist & _ & Hbuilt).
  apply bind_Ok_inv in Hbuilt as (profile & _ & Hbuilt).
  apply bind_Ok_inv in Hbuilt as (entitlements & _ & Hbuilt).
  injection Hbuilt as <-. reflexivity.
Qed.

(** What a bundle built by [NewIosBaseApplication] guarantees: it records the
    path it was built from, its manifest and its embedded profile exist and
    are what the two parsers return, and its entitlements are those of the
    executable the manifest names. *)
Theorem NewIosBaseApplication_built path (app : IosBaseApplication)
    (Hbuilt : NewIosBaseApplication path = Ok app) :
  Path app = path
  /\ IsPathExists (Join [path; "Info.plist"]) = Ok true
  /\ NewPlistDataFromFile (Join [path; "Info.plist"]) = Ok (InfoPlist app)
  /\ IsPathExists (Join [path; "embedded.mobileprovision"]) = Ok true
  /\ NewProvisioningProfileInfoFromFile (Join [path; "embedded.mobileprovision"])
     = Ok (ProvisioningProfile app)
  /\ getEntitlements path (executableNameFromInfoPlist (InfoPlist app))
     = Ok (Entitlements app).
Proof.
  unfold NewIosBaseApplication in Hbuilt. cbn zeta in Hbuilt.
  apply bind_Ok_inv in Hbuilt as (infoPlist & Hmanifest & Hbuilt).
  apply bind_Ok_inv in Hbuilt as (profile & Hprofile & Hbuilt).
  apply bind_Ok_inv in Hbuilt as (entitlements & Hentitlements & Hbuilt).
  injection Hbuilt as <-. simpl.
  destruct (IsPathExists (Join [path; "Info.plist"])) as [[|] | e1];
    try discriminate.
  destruct (IsPathExists (Join [path; "embedded.mobileprovision"]))
    as [[|] | e2]; try discriminate.
  repeat split; assumption.
Qed.

(** The failures of [NewIosBaseApplication] besides a missing file: a failed
    existence check is reported with the path and the cause, and an error of
    either parser or of the entitlement extraction is returned as it is.  An
    application, extension, watch application or clip whose entitlements
    cannot be read is therefore not built, unlike a framework. *)
Theorem NewIosBaseApplication_failures path :
  (forall err,
     IsPathExists (Join [path; "Info.plist"]) = Err err ->
     NewIosBaseApplication path
     = Err ("failed to check if Info.plist exists at: "
            +:+ Join [path; "Info.plist"] +:+ ", error: " +:+ err))
  /\ (forall e,
        IsPathExists (Join [path; "Info.plist"]) = Ok true ->
        NewPlistDataFromFile (Join [path; "Info.plist"]) = Err e ->
        NewIosBaseApplication path = Err e)
  /\ (forall infoPlist err,
        IsPathExists (Join [path; "Info.plist"]) = Ok true ->
        NewPlistDataFromFile (Join [path; "Info.plist"]) = Ok infoPlist ->
        IsPathExists (Join [path; "embedded.mobileprovision"]) = Err err ->
        NewIosBaseApplication path
        = Err ("failed to check if profile exists at: "
               +:+ Join [path; "embedded.mobileprovision"]
               +:+ ", error: " +:+ err))
  /\ (forall infoPlist e,
        IsPathExists (Join [path; "Info.plist"]) = Ok true ->
        NewPlistDataFromFile (Join [path; "Info.plist"]) = Ok infoPlist ->
        IsPathExists (Join [path; "embedded.mobileprovision"]) = Ok true ->
        NewProvisioningProfileInfoFromFile
          (Join [path; "embedded.mobileprovision"]) = Err e ->
        NewIosBaseApplication path = Err e)
  /\ (forall infoPlist profile e,
        IsPathExists (Join [path; "Info.plist"]) = Ok true ->
        NewPlistDataFromFile (Join [path; "Info.plist"]) = Ok infoPlist ->
        IsPathExists (Join [path; "embedded.mobileprovision"]) = Ok true ->
        NewProvisioningProfileInfoFromFile
          (Join [path; "embedded.mobileprovision"]) = Ok profile ->
        getEntitlements path (executableNameFromInfoPlist infoPlist) = Err e ->
        NewIosBaseApplication path = Err e
        /\ NewIosExtension path = Err e
        /\ NewIosClipApplication path = Err e
        /\ NewIosWatchApplication path = Err e
        /\ NewIosApplication path = Err e).
Proof.
  unfold NewIosExtension, NewIosClipApplication, NewIosWatchApplication,
    NewIosApplication, NewIosBaseApplication. cbn zeta.
  split; [intros err ->; reflexivity |].
  split; [intros e -> ->; reflexivity |].
  split; [intros infoPlist err -> -> ->; reflexivity |].
  split; [intros infoPlist e -> -> -> ->; reflexivity |].
  intros infoPlist profile e -> -> -> -> Hentitlements.
  rewrite !bind_Ok, Hentitlements. repeat split; reflexivity.
Qed.

(** A built application holds one extension per match of the extension
    search, in search order; the same holds of a watch application.  Either
    is built on the base bundle of its own path. *)
Theorem extensions_follow_search_order :
  (forall path (app : IosApplication),
     NewIosApplication path = Ok app ->
     NewIosBaseApplication path = Ok (AppBase app)
     /\ exists pths,
          Glob (Join [EscapeGlobPath path; "PlugIns/*.appex"]) = Ok pths
          /\ Forall2 (fun pth extension => NewIosExtension pth = Ok extension)
               pths (Extensions app))
  /\ (forall path (watch : IosWatchApplication),
        NewIosWatchApplication path = Ok watch ->
        NewIosBaseApplication path = Ok (WatchBase watch)
        /\ exists pths,
             Glob (Join [EscapeGlobPath path; "PlugIns/*.appex"]) = Ok pths
             /\ Forall2 (fun pth extension => NewIosExtension pth = Ok extension)
                  pths (WatchExtensions watch)).
Proof.
  split.
  - intros path app Hbuilt. unfold NewIosApplication in Hbuilt. cbn zeta in Hbuilt.
    apply bind_Ok_inv in Hbuilt as (baseApp & Hbase & Hbuilt).
    apply bind_Ok_inv in Hbuilt as (watchApp & _ & Hbuilt).
    apply bind_Ok_inv in Hbuilt as (clipApp & _ & Hbuilt).
    apply bind_Ok_inv in Hbuilt as (extensions & Hextensions & Hbuilt).
    injection Hbuilt as <-. simpl. split; [exact Hbase |].
    apply bind_Ok_inv in Hextensions as (pths & Hglob & Hloop).
    exists pths. split.
    + destruct (Glob _) as [found | e]; [exact Hglob | discriminate].
    + apply appendExtensions_Ok in Hloop as (built & -> & Hall). exact Hall.
  - intros path watch Hbuilt. unfold NewIosWatchApplication in Hbuilt.
    cbn zeta in Hbuilt.
    apply bind_Ok_inv in Hbuilt as (baseApp & Hbase & Hbuilt).
    apply bind_Ok_inv in Hbuilt as (pths & Hglob & Hbuilt).
    apply bind_Ok_inv in Hbuilt as (extensions & Hloop & Hbuilt).
    injection Hbuilt as <-. simpl. split; [exact Hbase |].
    exists pths. split.
    + destruct (Glob _) as [found | e]; [exact Hglob | discriminate].
    + apply appendExtensions_Ok in Hloop as (built & -> & Hall). exact Hall.
Qed.

(** Of several watch applications or clips the search lists, only the first
    is built and the others are never looked at: a built application has no
    watch application (no clip) exactly when the search found none, and
    otherwise holds the one built from the first match. *)
Theorem first_watch_and_clip_only path (app : IosApplication)
    (Hbuilt : NewIosApplication path = Ok app) :
  match Glob (Join [EscapeGlobPath path; "Watch/*.app"]) with
  | Ok [] => WatchApplication app = None
  | Ok (watchPath :: _) =>
      exists watch,
        NewIosWatchApplication watchPath = Ok watch
        /\ WatchApplication app = Some watch
  | Err _ => False
  end
  /\ match Glob (Join [EscapeGlobPath path; "AppClips/*.app"]) with
     | Ok [] => ClipApplication app = None
     | Ok (clipPath :: _) =>
         exists clip,
           NewIosClipApplication clipPath = Ok clip
           /\ ClipApplication app = Some clip
     | Err _ => False
     end.
Proof.
  unfold NewIosApplication in Hbuilt. cbn zeta in Hbuilt.
  apply bind_Ok_inv in Hbuilt as (baseApp & _ & Hbuilt).
  apply bind_Ok_inv in Hbuilt as (watchApp & Hwatch & Hbuilt).
  apply bind_Ok_inv in Hbuilt as (clipApp & Hclip & Hbuilt).
  apply bind_Ok_inv in Hbuilt as (extensions & _ & Hbuilt).
  injection Hbuilt as <-. simpl. split.
  - destruct (Glob (Join [EscapeGlobPath path; "Watch/*.app"]))
      as [[| watchPath others] | e]; [| | discriminate].
    + rewrite bind_Ok in Hwatch. congruence.
    + rewrite bind_Ok in Hwatch.
      apply bind_Ok_inv in Hwatch as (watch & Hwatch & Hsome).
      exists watch. split; [exact Hwatch | congruence].
  - destruct (Glob (Join [EscapeGlobPath path; "AppClips/*.app"]))
      as [[| clipPath others] | e]; [| | discriminate].
    + rewrite bind_Ok in Hclip. congruence.
    + rewrite bind_Ok in Hclip.
      apply bind_Ok_inv in Hclip as (clip & Hclip & Hsome).
      exists clip. split; [exact Hclip | congruence].
Qed.

(** What a built archive guarantees: it records its path and its parsed
    manifest, and its application is what [NewIosApplication] builds at the
    located application path, which exists. *)
Theorem NewIosArchive_built path archive
    (Hbuilt : NewIosArchive path = Ok archive) :
  ArchivePath archive = path
  /\ IsPathExists (Join [path; "Info.plist"]) = Ok true
  /\ NewPlistDataFromFile (Join [path; "Info.plist"]) = Ok (ArchiveInfoPlist archive)
  /\ exists appPath,
       match applicationFromPlist (ArchiveInfoPlist archive) with
       | (appRelativePathToProducts, true) =>
           Ok (Join [path; "Products"; appRelativePathToProducts])
       | (_, false) => applicationFromArchive path
       end = Ok appPath
       /\ IsPathExists appPath = Ok true
       /\ NewIosApplication appPath = Ok (Application archive)
       /\ Path (AppBase (Application archive)) = appPath.
Proof.
  unfold NewIosArchive in Hbuilt. cbn zeta in Hbuilt.
  apply bind_Ok_inv in Hbuilt as (infoPlist & Hmanifest & Hbuilt).
  apply bind_Ok_inv in Hbuilt as (appPath & Hlocated & Hbuilt).
  apply bind_Ok_inv in Hbuilt as (application & Happ & Hbuilt).
  injection Hbuilt as <-. simpl.
  destruct (IsPathExists (Join [path; "Info.plist"])) as [[|] | e1];
    try discriminate.
  destruct (IsPathExists appPath) as [[|] | e2] eqn:Hexists; try discriminate.
  split; [reflexivity |]. split; [reflexivity |]. split; [exact Hmanifest |].
  exists appPath. split; [exact Hlocated |]. split; [exact Hexists |].
  split; [exact Happ |].
  unfold NewIosApplication in Happ. cbn zeta in Happ.
  apply bind_Ok_inv in Happ as (baseApp & Hbase & Happ).
  apply bind_Ok_inv in Happ as (watchApp & _ & Happ).
  apply bind_Ok_inv in Happ as (clipApp & _ & Happ).
  apply bind_Ok_inv in Happ as (extensions & _ & Happ).
  injection Happ as <-. simpl.
  apply NewIosBaseApplication_built_path in Hbase. exact Hbase.
Qed.

(** Where [NewIosArchive] looks for the application.  A path named by the
    archive manifest is final: when nothing exists there the archive is not
    built and the products directory is not searched.  Without such an entry
    the first match of the search is taken, and a search with no match or a
    failed search ends the construction. *)
Theorem application_location path (infoPlist : PlistData)
    (Hmanifest : IsPathExists (Join [path; "Info.plist"]) = Ok true)
    (Hplist : NewPlistDataFromFile (Join [path; "Info.plist"]) = Ok infoPlist) :
  (forall properties appRelativePathToProducts,
     GetMapStringInterface infoPlist "ApplicationProperties" = (properties, true) ->
     GetString properties "ApplicationPath" = (appRelativePathToProducts, true) ->
     (IsPathExists (Join [path; "Products"; appRelativePathToProducts]) = Ok false ->
      NewIosArchive path
      = Err ("application not found on path: "
             +:+ Join [path; "Products"; appRelativePathToProducts]
             +:+ ", error: %!s(<nil>)"))
     /\ (IsPathExists (Join [path; "Products"; appRelativePathToProducts]) = Ok true ->
         NewIosArchive path
         = (application ←
              NewIosApplication (Join [path; "Products"; appRelativePathToProducts]);
            Ok {| ArchivePath := path; ArchiveInfoPlist := infoPlist;
                  Application := application |})))
  /\ (snd (applicationFromPlist infoPlist) = false ->
      (Glob (Join [EscapeGlobPath path; "Products/Applications/*.app"]) = Ok [] ->
       NewIosArchive path
       = Err ("failed to find main app, using pattern: "
              +:+ Join [EscapeGlobPath path; "Products/Applications/*.app"]))
      /\ (forall e,
            Glob (Join [EscapeGlobPath path; "Products/Applications/*.app"]) = Err e ->
            NewIosArchive path = Err e)
      /\ (forall first others,
            Glob (Join [EscapeGlobPath path; "Products/Applications/*.app"])
            = Ok (first :: others) ->
            IsPathExists first = Ok true ->
            NewIosArchive path
            = (application ← NewIosApplication first;
               Ok {| ArchivePath := path; ArchiveInfoPlist := infoPlist;
                     Application := application |}))).
Proof.
  split.
  - intros properties rel Hproperties Hpath.
    assert (Hnamed : applicationFromPlist infoPlist = (rel, true)).
    { unfold applicationFromPlist. rewrite Hproperties. exact Hpath. }
    split; intros Hexists; unfold NewIosArchive; cbn zeta;
      rewrite Hmanifest, Hplist, bind_Ok, Hnamed, bind_Ok, Hexists; reflexivity.
  - intros Hunnamed.
    destruct (applicationFromPlist infoPlist) as [rel named] eqn:Hlocated.
    simpl in Hunnamed. subst named.
    split; [| split].
    + intros Hglob. unfold NewIosArchive. cbn zeta.
      rewrite Hmanifest, Hplist, bind_Ok, Hlocated.
      unfold applicationFromArchive. cbn zeta. rewrite Hglob. reflexivity.
    + intros e Hglob. unfold NewIosArchive. cbn zeta.
      rewrite Hmanifest, Hplist, bind_Ok, Hlocated.
      unfold applicationFromArchive. cbn zeta. rewrite Hglob. reflexivity.
    + intros first others Hglob Hexists. unfold NewIosArchive. cbn zeta.
      rewrite Hmanifest, Hplist, bind_Ok, Hlocated.
      unfold applicationFromArchive. cbn zeta.
      rewrite Hglob, !bind_Ok, Hexists. reflexivity.
Qed.

Lemma keys_of_entries {A V : Type} (keyOf : A -> string) (valueOf : A -> V)
    (items : list A) :
  (map (fun item => (keyOf item, valueOf item)) items).*1 = map keyOf items.
Proof.
  induction items as [| item rest IH]; simpl; [reflexivity |].
  f_equal. exact IH.
Qed.

(** The bundle IDs of the application tree, whatever is stored with them. *)
Lemma treeIdentities_keys {V W : Type} (field : IosBaseApplication -> V)
    (field' : IosBaseApplication -> W) archive :
  (Spec.treeIdentities field archive).*1 = (Spec.treeIdentities field' archive).*1.
Proof.
  unfold Spec.treeIdentities. cbn zeta.
  destruct (Application archive) as [base [watch |] [clip |] extensions]; simpl;
    repeat (rewrite fmap_app || rewrite fmap_cons || rewrite keys_of_entries);
    reflexivity.
Qed.

(** Every bundle ID that has a provisioning profile in
    [BundleIDProfileInfoMap] has entitlements in [BundleIDEntitlementsMap]. *)
Theorem profile_entries_have_entitlements archive key
    (Hprofile : is_Some (BundleIDProfileInfoMap archive !! key)) :
  is_Some (BundleIDEntitlementsMap archive !! key).
Proof.
  rewrite BundleIDProfileInfoMap_lookup in Hprofile.
  rewrite BundleIDEntitlementsMap_lookup.
  destruct Hprofile as [profile Hprofile].
  apply lastBinding_elem in Hprofile.
  unfold Spec.profileIdentities in Hprofile.
  apply elem_of_app in Hprofile as [Htree | Hframework].
  - assert (Hkey : key ∈ (Spec.treeIdentities Entitlements archive).*1).
    { rewrite (treeIdentities_keys Entitlements ProvisioningProfile).
      apply list_elem_of_fmap. exists (key, profile).
      split; [reflexivity | exact Htree]. }
    apply list_elem_of_fmap in Hkey as ([key' entitlements] & -> & Hin).
    apply (lastBinding_is_Some _ entitlements).
    unfold Spec.entitlementIdentities. apply elem_of_app. left. exact Hin.
  - unfold Spec.qualifyingFrameworks in Hframework.
    apply list_elem_of_In, filter_In in Hframework as [Hin Hnonempty].
    apply in_map_iff in Hin as (frameworkPath & Hextract & Hin).
    rewrite extractFrameworkProfileInfo_readable in Hextract.
    destruct (NewProvisioningProfileInfoFromFile _) as [readable | e];
      [| injection Hextract as <- _; discriminate].
    destruct (negb (String.eqb (fst (extractFrameworkInfo frameworkPath)) ""))
      eqn:Hqualifies; [| injection Hextract as <- _; discriminate].
    injection Hextract as Hkey _.
    apply (lastBinding_is_Some _ (snd (extractFrameworkInfo frameworkPath))).
    unfold Spec.entitlementIdentities, Spec.qualifyingFrameworks.
    apply elem_of_app. right. apply list_elem_of_In, filter_In. split.
    + apply in_map_iff. exists frameworkPath. split; [| exact Hin].
      rewrite <- Hkey. destruct (extractFrameworkInfo frameworkPath); reflexivity.
    + rewrite <- Hkey. simpl. exact Hqualifies.
Qed.




(** [TeamID] returns the team of the profile of an identity, whichever entry
    the iteration visits first; when the profiles of all identities are of
    one team, that team is the result under every iteration order. *)
Theorem TeamID_of_an_identity archive :
  (exists key profile,
     (key, profile) ∈ Spec.profileIdentities archive
     /\ TeamID archive = Ok (ProfileUtil.TeamID profile))
  /\ (forall team,
        (forall key profile,
           (key, profile) ∈ Spec.profileIdentities archive ->
           ProfileUtil.TeamID profile = team) ->
        TeamID archive = Ok team).
Proof.
  destruct (TeamID_of_some_entry archive) as (key & profile & Hentry & Hteam).
  rewrite BundleIDProfileInfoMap_lookup in Hentry.
  apply lastBinding_elem in Hentry.
  split.
  - exists key, profile. split; assumption.
  - intros team Hall. rewrite Hteam, (Hall key profile Hentry). reflexivity.
Qed.


End ArchiveCoverage.

(** * The export command *)

Section ExportCommand.
Import Step.
Context `{StepEnv}.

(** The log formatter only decides what is logged.  Whatever it is, the
    command is run once with an empty working directory and no environment,
    and the raw output is returned together with the runner's error, also
    when that error is not nil; the log keeps its earlier lines, gains the
    command line, and gains the raw output after it exactly for the
    xcodebuild formatter. *)
Theorem export_result_independent_of_formatter (logFormatter logFormatter' : string)
    (cmdArgs logger : list string) :
  snd (runIPAExportCommand logFormatter cmdArgs logger) = Run "" cmdArgs []
  /\ snd (runIPAExportCommand logFormatter cmdArgs logger)
     = snd (runIPAExportCommand logFormatter' cmdArgs logger)
  /\ exists printed,
       fst (runIPAExportCommand logFormatter cmdArgs logger)
       = (logger
          ++ ("Running xcodebuild command: xcodebuild " +:+ String.concat " " cmdArgs)
             :: printed)%list
       /\ (logFormatter = XcodebuildTool -> printed = [fst (Run "" cmdArgs [])])
       /\ (logFormatter <> XcodebuildTool -> printed = []).
Proof.
  unfold runIPAExportCommand. cbn zeta.
  destruct (Run "" cmdArgs []) as [RawOut err]. simpl.
  split; [reflexivity |]. split; [reflexivity |].
  destruct (String.eqb_spec logFormatter XcodebuildTool) as [Hsame | Hother].
  - exists [RawOut]. split; [| split; [reflexivity | contradiction]].
    simpl. rewrite <- app_assoc. reflexivity.
  - exists []. split; [reflexivity | split; [contradiction | reflexivity]].
Qed.

End ExportCommand.

(** * The further properties on the sample data *)

Section CoverageRuns.
Import LocalCodesignAsset XCArchive Samples Nested.

Example run_nested_archive :
  @NewIosArchive nestedFS root = Ok nestedArchive
  /\ @NewIosWatchApplication nestedFS watchB
     = Err ("Info.plist not exists at: " +:+ watchB +:+ "/Info.plist")
  /\ @TeamID nestedFS nestedArchive = Ok "TEAM123".
Proof. vm_compute. repeat split; reflexivity. Qed.

Example run_failing_export :
  @Step.runIPAExportCommand failingRunner "xcbeautify" ["-exportArchive"; "-archivePath"; "a"] []
  = (["Running xcodebuild command: xcodebuild -exportArchive -archivePath a"],
     ("error: exportArchive failed", Some "exit status 70"))
  /\ fst (@Step.runIPAExportCommand failingRunner "xcodebuild" ["-exportArchive"] [])
     = ["Running xcodebuild command: xcodebuild -exportArchive";
        "error: exportArchive failed"].
Proof. vm_compute. split; reflexivity. Qed.

Lemma exact_mode_is_inclusion_witness :
  @containsAllAppEntitlements sampleEnv
    (acmeProfile "Acme" (<[ "get-task-allow" := VBool false ]> pushEntitlements))
    pushEntitlements = true
  <-> pushEntitlements
      ⊆ ProfileUtil.Entitlements
          (acmeProfile "Acme" (<[ "get-task-allow" := VBool false ]> pushEntitlements)).
Proof.
  apply (@exact_mode_is_inclusion sampleEnv). vm_compute. reflexivity.
Defined.

Lemma unrequired_profile_keys_ignored_witness :
  @containsAllAppEntitlements sampleEnv
    (acmeProfile "Acme" pushEntitlements) pushEntitlements
  = @containsAllAppEntitlements sampleEnv
      (acmeProfile "Acme" (<[ "get-task-allow" := VBool false ]> pushEntitlements))
      pushEntitlements
  /\ @profileSupportsAppEntitlements sampleEnv
       (acmeProfile "Acme" pushEntitlements) pushEntitlements
     = @profileSupportsAppEntitlements sampleEnv
         (acmeProfile "Acme" (<[ "get-task-allow" := VBool false ]> pushEntitlements))
         pushEntitlements.
Proof.
  apply (@unrequired_profile_keys_ignored sampleEnv).
  - vm_compute. reflexivity.
  - intros key Hrequired. simpl.
    destruct (decide (key = "get-task-allow")) as [-> | Hne].
    + exfalso. destruct Hrequired as [v Hv]. vm_compute in Hv. discriminate.
    + rewrite lookup_insert_ne by congruence. reflexivity.
Defined.

Lemma empty_requirements_are_vacuous_witness :
  @isProfileMatching sampleEnv (acmeProfile "Acme" pushEntitlements)
    {| platform := "iOS"; distributionType := "app-store";
       bundleID := "com.acme.app"; entitlements := ∅; minProfileDaysValid := 0;
       certSerials := []; deviceUDIDs := [] |}
  = true.
Proof.
  destruct (@empty_requirements_are_vacuous sampleEnv
              (acmeProfile "Acme" pushEntitlements)
              {| platform := "iOS"; distributionType := "app-store";
                 bundleID := "com.acme.app"; entitlements := ∅;
                 minProfileDaysValid := 0; certSerials := []; deviceUDIDs := [] |}
              eq_refl eq_refl eq_refl) as [Hexact _].
  etransitivity; [exact Hexact | vm_compute; reflexivity].
Defined.

Lemma boolean_against_other_type_passes_superset_witness :
  @profileSupportsAppEntitlements sampleEnv
    (acmeProfile "Acme" {[ "aps-environment" := VString "production" ]})
    {[ "aps-environment" := VBool true ]} = true
  /\ @containsAllAppEntitlements sampleEnv
       (acmeProfile "Acme" {[ "aps-environment" := VString "production" ]})
       {[ "aps-environment" := VBool true ]} = false.
Proof.
  apply (@boolean_against_other_type_passes_superset sampleEnv
           (acmeProfile "Acme" {[ "aps-environment" := VString "production" ]})
           "aps-environment" true (VString "production")).
  - apply String.eqb_neq. vm_compute. reflexivity.
  - vm_compute. reflexivity.
  - reflexivity.
Defined.

Lemma findProfile_result_meets_request_witness :
  BundleID (acmeProfile "Acme" pushEntitlements)
  = bundleID (acmeRequest pushEntitlements)
  /\ Type_ (acmeProfile "Acme" pushEntitlements)
     = @ToLower sampleEnv (platform (acmeRequest pushEntitlements)).
Proof.
  assert (Hfound : @findProfile sampleEnv [acmeProfile "Acme" pushEntitlements]
                     (acmeRequest pushEntitlements)
                   = Some (acmeProfile "Acme" pushEntitlements))
    by (vm_compute; reflexivity).
  destruct (@findProfile_result_meets_request sampleEnv _ _ _ Hfound)
    as (_ & Hbundle & _ & Htype & _).
  split; assumption.
Defined.

Lemma exact_match_beats_earlier_superset_match_witness :
  exists profile,
    @findProfile sampleEnv
      [acmeProfile "XC Acme" pushEntitlements; acmeProfile "Acme" pushEntitlements]
      (acmeRequest pushEntitlements) = Some profile
    /\ @isProfileMatching sampleEnv profile (acmeRequest pushEntitlements) = true
    /\ @IsXcodeManaged sampleEnv profile = false.
Proof.
  apply (@exact_match_beats_earlier_superset_match sampleEnv _ _
           (acmeProfile "Acme" pushEntitlements)).
  - right. left.
  - vm_compute. reflexivity.
Defined.

Lemma provisionsDevices_fewer_devices_witness :
  provisionsDevices (acmeProfile "Acme" ∅) ["udid-2"; "udid-2"] = true.
Proof.
  apply (provisionsDevices_fewer_devices _ ["udid-1"; "udid-2"]).
  - vm_compute. reflexivity.
  - intros u Hu. apply elem_of_cons in Hu as [-> | Hu]; [right; left |].
    apply list_elem_of_singleton in Hu as ->. right. left.
Defined.

Lemma NewIosBaseApplication_built_witness :
  Path (bundle app "com.acme.app") = app
  /\ @IsPathExists nestedFS (@Join nestedFS [app; "embedded.mobileprovision"])
     = Ok true.
Proof.
  assert (Hbuilt : @NewIosBaseApplication nestedFS app
                   = Ok (bundle app "com.acme.app"))
    by (vm_compute; reflexivity).
  destruct (@NewIosBaseApplication_built nestedFS _ _ Hbuilt)
    as (Hpath & _ & _ & Hprofile & _).
  split; assumption.
Defined.

Lemma first_watch_and_clip_only_witness :
  (exists watch,
     @NewIosWatchApplication nestedFS watchA = Ok watch
     /\ WatchApplication nestedApplication = Some watch)
  /\ (exists clipApplication,
        @NewIosClipApplication nestedFS clip = Ok clipApplication
        /\ ClipApplication nestedApplication = Some clipApplication).
Proof.
  assert (Hbuilt : @NewIosApplication nestedFS app = Ok nestedApplication)
    by (vm_compute; reflexivity).
  exact (@first_watch_and_clip_only nestedFS app nestedApplication Hbuilt).
Defined.

Lemma NewIosArchive_built_witness :
  exists appPath,
    @NewIosApplication nestedFS appPath = Ok nestedApplication
    /\ Path (AppBase nestedApplication) = appPath.
Proof.
  assert (Hbuilt : @NewIosArchive nestedFS root = Ok nestedArchive)
    by (vm_compute; reflexivity).
  destruct (@NewIosArchive_built nestedFS root nestedArchive Hbuilt)
    as (_ & _ & _ & appPath & _ & _ & Happ & Hpath).
  exists appPath. split; assumption.
Defined.

Lemma application_location_witness :
  @NewIosArchive nestedFS root
  = (application ← @NewIosApplication nestedFS app;
     Ok {| ArchivePath := root; ArchiveInfoPlist := archiveManifest;
           Application := application |}).
Proof.
  assert (Hmanifest : @IsPathExists nestedFS (@Join nestedFS [root; "Info.plist"])
                      = Ok true) by (vm_compute; reflexivity).
  assert (Hplist : @NewPlistDataFromFile nestedFS (@Join nestedFS [root; "Info.plist"])
                   = Ok archiveManifest) by (vm_compute; reflexivity).
  destruct (@application_location nestedFS root archiveManifest Hmanifest Hplist)
    as [Hnamed _].
  destruct (Hnamed applicationProperties "Applications/App.app") as [_ Hthere];
    [vm_compute; reflexivity | vm_compute; reflexivity |].
  apply Hthere. vm_compute. reflexivity.
Defined.

Lemma profile_entries_have_entitlements_witness :
  is_Some (@BundleIDEntitlementsMap sampleFS sampleArchive !! "com.acme.lib").
Proof.
  apply (@profile_entries_have_entitlements sampleFS).
  exists libProfile. vm_compute. reflexivity.
Defined.


End CoverageRuns.
